(** * ExpressTS: the request pipeline, the auth gate and the error responder

    A shallow embedding of the TypeScript sources
      - utils/AppError.ts                (class [AppError])
      - utils/catchAsync.ts              ([catchAsync])
      - middleware/authMiddleware.ts     ([firebaseAuthMiddleware])
      - middleware/errorMiddleware.ts    ([globalErrorHandler] and its helpers)
      - controllers/userController.ts    ([getUserProfile], [updateUserProfile])
      - modules/protectedRouter.ts, routes/profile.ts, the application file.

    JavaScript values are a small inductive type; a handler is a computation
    in a state-and-exception monad over the per-request context, in which
    [res.status(..).json(..)], [console.error] and the verifier call leave
    events.  [next] is a continuation, as in the source. *)

From Stdlib Require Import ZArith List String Ascii Bool Lia DecimalString.
Import ListNotations.
Open Scope string_scope.
Open Scope Z_scope.

Set Implicit Arguments.

(** ** JavaScript values *)

(** An object carries its own enumerable data properties in creation order,
    the two non-enumerable own properties that the built-in [Error]
    constructor creates ([message] and [stack]), and the properties it
    inherits through its prototype chain (flattened, nearest first).  The
    own properties are an association list: their order shows in
    [Object.values], in a spread copy and in a response body (keys that are
    array indices, which the engine lists first, play no part here).  The
    program never defines a non-enumerable property itself, and never
    mutates a prototype.  Numbers are the integers: the program only handles
    status codes and error codes. *)
#[warnings="-register-all"]
Inductive JsVal : Type :=
| JUndefined
| JNull
| JBool (b : bool)
| JNum (n : Z)
| JStr (s : string)
| JObj (own : list (string * JsVal))
       (message stack : option JsVal)
       (inherited : list (string * JsVal)).

Definition Props := list (string * JsVal).

Fixpoint lookup (k : string) (ps : Props) : option JsVal :=
  match ps with
  | [] => None
  | (k', v) :: ps' => if String.eqb k k' then Some v else lookup k ps'
  end.

(** [update k v ps] is the assignment to an own property: in place when the
    key exists, appended when it does not. *)
Fixpoint update (k : string) (v : JsVal) (ps : Props) : Props :=
  match ps with
  | [] => [(k, v)]
  | (k', v') :: ps' =>
      if String.eqb k k' then (k', v) :: ps' else (k', v') :: update k v ps'
  end.

Definition orUndefined (o : option JsVal) : JsVal :=
  match o with Some v => v | None => JUndefined end.

Definition isSome (o : option JsVal) : bool :=
  match o with Some _ => true | None => false end.

(** ToBoolean. *)
Definition truthy (v : JsVal) : bool :=
  match v with
  | JUndefined | JNull => false
  | JBool b => b
  | JNum n => negb (n =? 0)
  | JStr s => negb (String.eqb s EmptyString)
  | JObj _ _ _ _ => true
  end.

(** [a || b] *)
Definition js_or (a b : JsVal) : JsVal := if truthy a then a else b.

(** The slot of a non-enumerable own property of an [Error] instance. *)
Definition slot (k : string) (message stack : option JsVal) : option JsVal :=
  if String.eqb k "message" then message
  else if String.eqb k "stack" then stack
  else None.

(** Property read [o.k] on an object: own enumerable, then the [Error]
    slots, then the prototype chain. *)
Definition getProp (k : string) (own : Props) (message stack : option JsVal)
           (inherited : Props) : JsVal :=
  match lookup k own with
  | Some v => v
  | None =>
      match slot k message stack with
      | Some v => v
      | None => orUndefined (lookup k inherited)
      end
  end.

(** Property read on a value that is known not to be [undefined] or [null]:
    the keys the program reads ([name], [uid], [message], ...) are not
    properties of strings, numbers or booleans. *)
Definition get (k : string) (v : JsVal) : JsVal :=
  match v with
  | JObj own m s inh => getProp k own m s inh
  | _ => JUndefined
  end.

(** Assignment [o.k = v] on an object.  An existing own property keeps its
    place (and a slot stays non-enumerable); otherwise a new own enumerable
    property is created, also when the key is inherited. *)
Definition set (k : string) (v : JsVal) (o : JsVal) : JsVal :=
  match o with
  | JObj own m s inh =>
      match lookup k own with
      | Some _ => JObj (update k v own) m s inh
      | None =>
          if String.eqb k "message" && isSome m
          then JObj own (Some v) s inh
          else if String.eqb k "stack" && isSome s
          then JObj own m (Some v) inh
          else JObj (update k v own) m s inh
      end
  | _ => o
  end.

(** Object spread [{ ...o }]: the own enumerable properties only, in a fresh
    plain object.  None of the keys the program reads is a property of
    [Object.prototype]. *)
Definition spread (o : JsVal) : JsVal :=
  match o with
  | JObj own _ _ _ => JObj own None None []
  | _ => JObj [] None None []
  end.

(** An object literal. *)
Definition obj (ps : Props) : JsVal := JObj ps None None [].

Definition isObject (v : JsVal) : bool :=
  match v with JObj _ _ _ _ => true | _ => false end.

(** [v === "s"] and [v === n]. *)
Definition strictEqStr (v : JsVal) (s : string) : bool :=
  match v with JStr s' => String.eqb s' s | _ => false end.

Definition strictEqNum (v : JsVal) (n : Z) : bool :=
  match v with JNum n' => n' =? n | _ => false end.

(** ** Strings *)

(** Decimal rendering of an integer, as [Number.prototype.toString] does
    for a number that a double holds exactly and prints in full: the safe
    integers, up to 2^53 - 1 in absolute value (see [safeInteger]).  Beyond
    them the engine rounds, and from 10^21 on it prints an exponent. *)
Definition decimal (n : Z) : string := NilZero.string_of_int (Z.to_int n).

(** [s.startsWith(p)] *)
Definition startsWith (s p : string) : bool := String.prefix p s.

(** [s.split(sep)] for a non-empty separator: the pieces between the
    occurrences of [sep], found left to right without overlap.  [skip]
    counts the characters of a matched separator still to be dropped and
    [cur] holds the current piece. *)
Fixpoint split_from (sep : string) (skip : nat) (cur : string) (s : string)
  : list string :=
  match s with
  | EmptyString => [cur]
  | String c s' =>
      match skip with
      | S k => split_from sep k cur s'
      | O =>
          if String.prefix sep s
          then cur :: split_from sep (String.length sep - 1) EmptyString s'
          else split_from sep 0 (cur ++ String c EmptyString) s'
      end
  end.

Definition split (s sep : string) : list string :=
  split_from sep 0 EmptyString s.

(** Array indexing [a[i]]. *)
Definition index (a : list string) (i : nat) : JsVal :=
  match nth_error a i with Some s => JStr s | None => JUndefined end.

(** ** The regular expression of the duplicate-field handler *)

(** The expression is [/(Q)(\\?.)*?\1/] where the class [Q] holds the double
    and the single quote: a quote character, then as few repetitions as
    possible of an optional backslash and one character that is not a line
    terminator, then the same quote character.  Strings are sequences of
    8-bit characters, among which the line terminators are LF and CR.  The
    two other characters that the dot of the expression refuses, U+2028
    and U+2029, are not among them: a statement that the expression
    matches is made for ASCII text only (see [asciiText]), where the 8-bit
    characters are the code units of the engine's string. *)
Definition dquote : ascii := "034"%char.
Definition squote : ascii := "039"%char.
Definition backslash : ascii := "092"%char.

Definition isQuote (c : ascii) : bool := Ascii.eqb c dquote || Ascii.eqb c squote.

Definition lineTerminator (c : ascii) : bool :=
  Ascii.eqb c "010"%char || Ascii.eqb c "013"%char.

(** [closing q s]: the match of [(\\?.)*?\1] at the start of [s] when group 1
    holds [q], with the backtracking order of the source's expression: the
    lazy star tries the back-reference first; inside the group the greedy
    [\\?] takes a backslash first and gives it back when the rest fails. *)
Fixpoint closing (q : ascii) (s : string) : option string :=
  match s with
  | EmptyString => None
  | String c s' =>
      if Ascii.eqb c q then Some (String c EmptyString)
      else
        let plain :=
          if lineTerminator c then None
          else option_map (String c) (closing q s') in
        if Ascii.eqb c backslash then
          match s' with
          | String d s'' =>
              if lineTerminator d then plain
              else
                match closing q s'' with
                | Some m => Some (String c (String d m))
                | None => plain
                end
          | EmptyString => plain
          end
        else plain
  end.

(** [s.match(re)] for this expression: the text of the leftmost match
    (element [0] of the result array), or [None] for [null]. *)
Fixpoint regexMatch (s : string) : option string :=
  match s with
  | EmptyString => None
  | String c s' =>
      match (if isQuote c then closing c s' else None) with
      | Some m => Some (String c m)
      | None => regexMatch s'
      end
  end.

(** ** Exceptions, promises and the request context *)

Inductive Result (A : Type) : Type :=
| Return (a : A)
| Throw (e : JsVal).
Arguments Return {A} a.
Arguments Throw {A} e.

(** The settlement of a promise: the one the external verifier returns,
    the one the call of a handler returns. *)
Inductive Settled : Type :=
| Resolved (v : JsVal)
| Rejected (e : JsVal).

Record Request : Type := mkRequest {
  method : string;
  originalUrl : string;
  authorization : option string;   (* req.headers.authorization *)
  body : JsVal;                    (* req.body *)
  user : JsVal                     (* req.user, [JUndefined] until attached *)
}.

Definition attachUser (u : JsVal) (r : Request) : Request :=
  mkRequest (method r) (originalUrl r) (authorization r) (body r) u.

(** What a request leaves behind, in order. *)
Inductive Event : Type :=
| Verify (credential : JsVal)               (* admin.auth().verifyIdToken(c) *)
| ConsoleError (args : list JsVal)          (* console.error(...) *)
| StatusJson (code : JsVal) (body : JsVal)  (* res.status(code).json(body) *)
| Json (body : JsVal)                       (* res.json(body) *)
| Send (text : string)                      (* res.send(text) *)
| Escaped (e : JsVal).                      (* thrown out of the last handler *)

Record Ctx : Type := mkCtx {
  req : Request;
  NODE_ENV : option string;                 (* process.env.NODE_ENV *)
  events : list Event
}.

(** State and exceptions: an effect done before a throw stays done. *)
Definition M (A : Type) : Type := Ctx -> Result A * Ctx.

Definition ret {A} (a : A) : M A := fun c => (Return a, c).

Definition bind {A B} (m : M A) (k : A -> M B) : M B :=
  fun c => match m c with
           | (Return a, c') => k a c'
           | (Throw e, c') => (Throw e, c')
           end.

Definition throw {A} (e : JsVal) : M A := fun c => (Throw e, c).

(** [try { m } catch (e) { h e }] and, for a promise, [m.catch(h)]. *)
Definition tryCatch {A} (m : M A) (h : JsVal -> M A) : M A :=
  fun c => match m c with
           | (Return a, c') => (Return a, c')
           | (Throw e, c') => h e c'
           end.

Definition lift {A} (r : Result A) : M A := fun c => (r, c).

Declare Scope js_scope.
Delimit Scope js_scope with js.
Notation "x <- m ;; k" := (bind m (fun x => k))
  (at level 61, m at next level, right associativity) : js_scope.
Notation "m ;; k" := (bind m (fun _ => k))
  (at level 61, right associativity) : js_scope.
Open Scope js_scope.

Definition getReq : M Request := fun c => (Return (req c), c).

Definition getEnv : M (option string) := fun c => (Return (NODE_ENV c), c).

Definition emit (e : Event) : M unit :=
  fun c => (Return tt, mkCtx (req c) (NODE_ENV c) (events c ++ [e])).

(** [req.user = u] *)
Definition setUser (u : JsVal) : M unit :=
  fun c => (Return tt, mkCtx (attachUser u (req c)) (NODE_ENV c) (events c)).

(** [await p] *)
Definition await (p : Settled) : M JsVal :=
  match p with Resolved v => ret v | Rejected e => throw e end.

(** The [next] function a middleware receives: [next None] is [next()],
    [next (Some e)] is [next(e)]. *)
Definition Next : Type := option JsVal -> M unit.

Definition exec {A} (m : M A) (c : Ctx) : list Event := events (snd (m c)).

(** Which layer of the application a request selects.  The matching of
    methods and paths is the router's, not the program's: see [dispatch]. *)
Inductive ProfileRoute : Type :=
| ProfileRoot       (* Router.get("/", ...) *)
| ProfileDetails    (* Router.get("/details", getUserProfile) *)
| ProfileUpdate     (* Router.put("/update", updateUserProfile) *)
| ProfileNone.      (* under the mount, no route *)

Inductive Matched : Type :=
| RootGet                              (* app.get("/", ...) *)
| ProfileMount (r : ProfileRoute)      (* app.use("/profile", profileRoutes) *)
| NoRoute.                             (* only app.all("*", ...) *)

(** ** A sample environment for the examples *)

(** A verifier that accepts the credential [good] as the subject [u1],
    resolves [void] to no identity and rejects every other credential. *)
Definition sampleVerifier (credential : JsVal) : Settled :=
  if strictEqStr credential "good"
  then Resolved (obj [("uid", JStr "u1")])
  else if strictEqStr credential "void"
  then Resolved JUndefined
  else Rejected (obj [("code", JStr "auth/argument-error")]).

(** A verifier that accepts exactly the credential [aBearer b]. *)
Definition spacedVerifier (credential : JsVal) : Settled :=
  if strictEqStr credential "aBearer b"
  then Resolved (obj [("uid", JStr "u2")])
  else Rejected (obj [("code", JStr "auth/argument-error")]).

Definition sampleToString (_ : JsVal) : string := "[object Object]".

Definition sampleStack : string := "Error: at handler".

(** Routing of the sample: exact paths, any method. *)
Definition sampleDispatch (method url : string) : Matched :=
  if String.eqb url "/" then RootGet
  else if String.eqb url "/profile/" then ProfileMount ProfileRoot
  else if String.eqb url "/profile/details" then ProfileMount ProfileDetails
  else if String.eqb url "/profile/update" then ProfileMount ProfileUpdate
  else if String.prefix "/profile/" url then ProfileMount ProfileNone
  else NoRoute.

(** A request with the given method, URL, header and body, in the given
    deployment mode, before anything has happened. *)
Definition sampleCtx (env : option string) (method url : string)
           (header : option string) (body : JsVal) : Ctx :=
  mkCtx (mkRequest method url header body JUndefined) env [].

(** A route handler that only leaves a mark. *)
Definition markingHandler : Next :=
  fun _ => emit (Send "handler ran").

Definition production : option string := Some "production".
Definition development : option string := Some "development".

(** An error as a token library raises it: [name] and [message] are own
    enumerable properties. *)
Definition sampleTokenError (name : string) : JsVal :=
  JObj [("name", JStr name); ("message", JStr "jwt malformed")]
       None (Some (JStr sampleStack))
       [("name", JStr "Error"); ("message", JStr EmptyString)].

(** An error of a class that sets [name] on its prototype. *)
Definition sampleInheritedNameError (name : string) : JsVal :=
  JObj [] (Some (JStr "jwt malformed")) (Some (JStr sampleStack))
       [("name", JStr name); ("message", JStr EmptyString)].

Definition errorCtx (env : option string) : Ctx :=
  sampleCtx env "GET" "/profile/" None JUndefined.

(** A request to the update route with the credential that the sample
    verifier accepts, in production mode. *)
Definition updateCtx (body : JsVal) : Ctx :=
  sampleCtx production "PUT" "/profile/update" (Some "Bearer good") body.

(** A request to the details route. *)
Definition detailsCtx (header : option string) : Ctx :=
  sampleCtx production "GET" "/profile/details" header JUndefined.

Section Program.

(** [admin.auth().verifyIdToken]: the identity provider. *)
Variable verifyIdToken : JsVal -> Settled.

(** ToString of an object, which runs the object's own [toString]. *)
Variable objectToString : JsVal -> string.

(** The text [Error.captureStackTrace] records; it depends on the call
    site only. *)
Variable stackTrace : string.

(** The router's matching of a request method and URL against the routes
    the application file and routes/profile.ts declare, in order. *)
Variable dispatch : string -> string -> Matched.

(** *** Conversions *)

(** ToString, as a template literal applies it. *)
Definition toStr (v : JsVal) : string :=
  match v with
  | JUndefined => "undefined"
  | JNull => "null"
  | JBool true => "true"
  | JBool false => "false"
  | JNum n => decimal n
  | JStr s => s
  | JObj _ _ _ _ => objectToString v
  end.

(** A [TypeError] raised by the engine. *)
Definition TypeError (message : string) : JsVal :=
  JObj [] (Some (JStr message)) (Some (JStr stackTrace))
       [("name", JStr "TypeError"); ("message", JStr EmptyString)].

(** Property read [v.k], which throws on [undefined] and [null]. *)
Definition member (k : string) (v : JsVal) : Result JsVal :=
  match v with
  | JUndefined | JNull =>
      Throw (TypeError ("Cannot read properties of " ++ toStr v))
  | _ => Return (get k v)
  end.

(** Optional chaining [v?.k]. *)
Definition optMember (k : string) (v : JsVal) : JsVal :=
  match v with
  | JUndefined | JNull => JUndefined
  | _ => get k v
  end.

(** [Object.values(v)] *)
Definition objectValues (v : JsVal) : Result (list JsVal) :=
  match v with
  | JUndefined | JNull =>
      Throw (TypeError "Cannot convert undefined or null to object")
  | JObj own _ _ _ => Return (map snd own)
  | JStr s => Return (map (fun c => JStr (String c EmptyString)) (list_ascii_of_string s))
  | _ => Return []
  end.

(** [a.join(sep)]: [undefined] and [null] elements give the empty text. *)
Definition joinElement (v : JsVal) : string :=
  match v with
  | JUndefined | JNull => EmptyString
  | _ => toStr v
  end.

Fixpoint join (sep : string) (a : list JsVal) : string :=
  match a with
  | [] => EmptyString
  | [v] => joinElement v
  | v :: a' => joinElement v ++ sep ++ join sep a'
  end.

(** *** utils/AppError.ts *)

(** [new AppError(message, statusCode)].  [super(message)] creates the
    non-enumerable [message] and [stack]; the three assignments create own
    enumerable properties; [name] is inherited from [Error.prototype]. *)
Definition AppError (message : string) (statusCode : option Z) : JsVal :=
  let statusCode := match statusCode with Some n => n | None => 500 end in
  JObj [("statusCode", JNum statusCode);
        ("status", JStr (if startsWith (decimal statusCode) "4"
                         then "fail" else "error"));
        ("isOperational", JBool true)]
       (Some (JStr message)) (Some (JStr stackTrace))
       [("name", JStr "Error"); ("message", JStr EmptyString)].

(** *** utils/catchAsync.ts *)

(** [async (req, res, next) => { body }].  The call of an [async] function
    runs the body and never throws: it returns a promise, fulfilled when
    the body returns (with a value that nothing reads, [undefined] here)
    and rejected with what the body throws. *)
Definition async (body : Next -> M unit) : Next -> M Settled :=
  fun next c =>
    match body next c with
    | (Return _, c') => (Return (Resolved JUndefined), c')
    | (Throw e, c') => (Return (Rejected e), c')
    end.

(** [catchAsync(fn)]: [Promise.resolve(fn(req, res, next)).catch(next)].
    The call of [fn] is evaluated first, so what the call itself throws
    (a function that is not [async]) leaves the wrapper before any promise
    exists.  Otherwise [fn] gives the settlement of
    [Promise.resolve(<returned value>)], and a rejection is handed to
    [next]. *)
Definition catchAsync (fn : Next -> M Settled) : Next -> M unit :=
  fun next =>
    returned <- fn next ;;
    match returned with
    | Resolved _ => ret tt
    | Rejected e => next (Some e)
    end.

(** *** middleware/authMiddleware.ts *)

Definition unauthorized (message : string) : M unit :=
  emit (StatusJson (JNum 401)
          (obj [("error", JStr "Unauthorized"); ("message", JStr message)])).

(** [authHeader.split('Bearer ')[1]] *)
Definition bearerToken (authHeader : string) : JsVal :=
  index (split authHeader "Bearer ") 1.

Definition firebaseAuthMiddleware (next : Next) : M unit :=
  tryCatch
    (r <- getReq ;;
     match authorization r with
     | None => unauthorized "Missing or invalid authorization token"
     | Some authHeader =>
         if negb (truthy (JStr authHeader))
            || negb (startsWith authHeader "Bearer ")
         then unauthorized "Missing or invalid authorization token"
         else
           let token := bearerToken authHeader in
           emit (Verify token) ;;
           decodedToken <- await (verifyIdToken token) ;;
           if negb (truthy decodedToken)
           then unauthorized "Invalid authorization token"
           else setUser decodedToken ;; next None
     end)
    (fun error =>
       emit (ConsoleError [JStr "Error validating Firebase token:"; error]) ;;
       unauthorized "Invalid authorization token").

(** *** modules/protectedRouter.ts *)

Definition protectedRouter (next : Next) : M unit :=
  tryCatch (firebaseAuthMiddleware next) (fun e => next (Some e)).

(** *** middleware/errorMiddleware.ts *)

Definition handleCastError (err : JsVal) : JsVal :=
  let message :=
    "Invalid " ++ toStr (get "path" err) ++ ": " ++ toStr (get "value" err) in
  AppError message (Some 400).

(** [err.errmsg.match(re)[0]]: reading [match] of [undefined] throws,
    calling it on a value that is not a string throws, and so does
    indexing the [null] of a failed match. *)
Definition handleDuplicateFieldsError (err : JsVal) : Result JsVal :=
  match get "errmsg" err with
  | JStr errmsg =>
      match regexMatch errmsg with
      | Some value =>
          let message :=
            "Duplicate field value: " ++ value
            ++ ". Please use another value!" in
          Return (AppError message (Some 400))
      | None => Throw (TypeError "Cannot read properties of null")
      end
  | JUndefined | JNull => Throw (TypeError "Cannot read properties of undefined")
  | _ => Throw (TypeError "err.errmsg.match is not a function")
  end.

Fixpoint messagesOf (vals : list JsVal) : Result (list JsVal) :=
  match vals with
  | [] => Return []
  | val :: vals' =>
      match member "message" val with
      | Throw e => Throw e
      | Return m =>
          match messagesOf vals' with
          | Throw e => Throw e
          | Return ms => Return (m :: ms)
          end
      end
  end.

Definition handleValidationError (err : JsVal) : Result JsVal :=
  match objectValues (get "errors" err) with
  | Throw e => Throw e
  | Return vals =>
      match messagesOf vals with
      | Throw e => Throw e
      | Return errors =>
          let message := "Invalid input data. " ++ join ". " errors in
          Return (AppError message (Some 400))
      end
  end.

Definition handleJWTError : JsVal :=
  AppError "Invalid token. Please log in again." (Some 401).

Definition handleJWTExpiredError : JsVal :=
  AppError "Your token has expired! Please log in again." (Some 401).

Definition sendErrorDev (err : JsVal) : M unit :=
  emit (StatusJson (get "statusCode" err)
          (obj [("status", get "status" err);
                ("error", err);
                ("message", get "message" err);
                ("stack", get "stack" err)])).

Definition sendErrorProd (err : JsVal) : M unit :=
  if truthy (get "isOperational" err)
  then emit (StatusJson (get "statusCode" err)
               (obj [("status", get "status" err);
                     ("message", get "message" err)]))
  else
    emit (ConsoleError [JStr "ERROR 💥"; err]) ;;
    emit (StatusJson (JNum 500)
            (obj [("status", JStr "error");
                  ("message", JStr "Something went wrong")])).

(** The two assignments that open [globalErrorHandler]. *)
Definition normalize (err : JsVal) : JsVal :=
  let err := set "statusCode" (js_or (get "statusCode" err) (JNum 500)) err in
  set "status" (js_or (get "status" err) (JStr "error")) err.

Definition isProduction (env : option string) : bool :=
  match env with Some v => String.eqb v "production" | None => false end.

(** The error value is an object: the module is strict code, where the
    first assignment throws on anything else. *)
Definition globalErrorHandler (err : JsVal) : M unit :=
  if negb (isObject err)
  then throw (TypeError "Cannot create property 'statusCode'")
  else
    let err := normalize err in
    env <- getEnv ;;
    if isProduction env then
      let error := spread err in
      let error := set "message" (get "message" err) error in
      error <- ret (if strictEqStr (get "name" error) "CastError"
                    then handleCastError error else error) ;;
      error <- (if strictEqNum (get "code" error) 11000
                then lift (handleDuplicateFieldsError error)
                else ret error) ;;
      error <- (if strictEqStr (get "name" error) "ValidationError"
                then lift (handleValidationError error)
                else ret error) ;;
      error <- ret (if strictEqStr (get "name" error) "JsonWebTokenError"
                    then handleJWTError else error) ;;
      error <- ret (if strictEqStr (get "name" error) "TokenExpiredError"
                    then handleJWTExpiredError else error) ;;
      sendErrorProd error
    else sendErrorDev err.

(** *** controllers/userController.ts *)

Definition getUserProfile : Next -> M unit :=
  catchAsync (async (fun next =>
    r <- getReq ;;
    if negb (truthy (user r))
    then next (Some (AppError "User not authenticated" (Some 401)))
    else emit (StatusJson (JNum 200)
                 (obj [("status", JStr "success");
                       ("data", obj [("user", user r)])])))).

Definition updateUserProfile : Next -> M unit :=
  catchAsync (async (fun next =>
    r <- getReq ;;
    name <- lift (member "name" (body r)) ;;
    email <- lift (member "email" (body r)) ;;
    if negb (truthy name) || negb (truthy email)
    then next (Some (AppError "Please provide name and email" (Some 400)))
    else emit (StatusJson (JNum 200)
                 (obj [("status", JStr "success");
                       ("data",
                        obj [("user",
                              obj [("uid", optMember "uid" (user r));
                                   ("name", name);
                                   ("email", email)])])])))).

(** *** routes/profile.ts *)

Definition profileRoot : Next -> M unit :=
  catchAsync (async (fun next =>
    r <- getReq ;;
    if negb (truthy (user r))
    then next (Some (AppError "User not found" (Some 404)))
    else emit (Json
                 (obj [("message",
                        JStr "Profile route is protected and accessible only to authenticated users.");
                       ("user", user r)])))).

(** *** The application file *)

(** [app.all("*", ...)]: the 404 handler. *)
Definition notFound (next : Next) : M unit :=
  r <- getReq ;;
  next (Some (AppError ("Can't find " ++ originalUrl r ++ " on this server!")
                (Some 404))).

(** [next] as the application's last layers see it: an error goes to
    [app.use(globalErrorHandler)], and what that handler throws leaves the
    program.  No handler of the program calls [next()] past the 404
    handler, and every error value it passes on is an object. *)
Definition toErrorHandler : Next :=
  fun e =>
    match e with
    | Some err => tryCatch (globalErrorHandler err) (fun e' => emit (Escaped e'))
    | None => ret tt
    end.

(** routes/profile.ts again: what the router does with [next] once the
    gate is passed.  An error goes to the application's error handler; a
    request that none of its three routes matches leaves the router and
    reaches the 404 handler. *)
Definition profileRoutes (route : ProfileRoute) : Next :=
  fun e =>
    match e with
    | Some err => toErrorHandler (Some err)
    | None =>
        match route with
        | ProfileRoot => profileRoot toErrorHandler
        | ProfileDetails => getUserProfile toErrorHandler
        | ProfileUpdate => updateUserProfile toErrorHandler
        | ProfileNone => notFound toErrorHandler
        end
    end.

(** The layers in the order the application file registers them, after
    the two body parsers have filled [req.body]. *)
Definition app : M unit :=
  r <- getReq ;;
  match dispatch (method r) (originalUrl r) with
  | RootGet => emit (Send "Hello World!")
  | ProfileMount route => protectedRouter (profileRoutes route)
  | NoRoute => notFound toErrorHandler
  end.

(** *** Vocabulary of the statements *)

(** The handler returned normally, left the request and the environment
    as they were, and added the events [es]. *)
Definition answered (c : Ctx) (es : list Event) : Result unit * Ctx :=
  (Return tt, mkCtx (req c) (NODE_ENV c) (events c ++ es)).

(** The handler threw [e] before it did anything. *)
Definition threw (c : Ctx) (e : JsVal) : Result unit * Ctx := (Throw e, c).

(** The request passes the gate with the identity [v]: its header [h]
    starts with the scheme, and the verifier resolves the token that the
    gate extracts from [h] to the truthy value [v]. *)
Definition accepts (c : Ctx) (h : string) (v : JsVal) : Prop :=
  authorization (req c) = Some h
  /\ startsWith h "Bearer " = true
  /\ verifyIdToken (bearerToken h) = Resolved v
  /\ truthy v = true.

(** The context in which the gate then calls [next()]: the verifier has
    been called and the identity is attached. *)
Definition verified (c : Ctx) (h : string) (v : JsVal) : Ctx :=
  mkCtx (attachUser v (req c)) (NODE_ENV c)
        (events c ++ [Verify (bearerToken h)]).

(** The gate ends the request with the events [es]: it does so whatever
    the next stage is, and so does the application for a request under the
    protected mount, whatever the route. *)
Definition stopsWith (c : Ctx) (es : list Event) : Prop :=
  (forall next : Next, firebaseAuthMiddleware next c = answered c es)
  /\ (forall route,
        dispatch (method (req c)) (originalUrl (req c)) = ProfileMount route ->
        app c = answered c es).

(** The 401 answer of the gate. *)
Definition unauthorizedAnswer (message : string) : Event :=
  StatusJson (JNum 401)
    (obj [("error", JStr "Unauthorized"); ("message", JStr message)]).

(** The [catch] block of the gate. *)
Definition rejected (error : JsVal) : M unit :=
  emit (ConsoleError [JStr "Error validating Firebase token:"; error]) ;;
  unauthorized "Invalid authorization token".

(** [sep] occurs in [s]. *)
Definition occurs (sep s : string) : Prop :=
  exists a b, s = a ++ sep ++ b.

(** No line terminator in [s]. *)
Fixpoint oneLine (s : string) : bool :=
  match s with
  | EmptyString => true
  | String c s' => negb (lineTerminator c) && oneLine s'
  end.


(** The five tests of the production branch of [globalErrorHandler], in
    the order of the source, as one function of the copied error. *)
Definition reclassify (error : JsVal) : Result JsVal :=
  let error := if strictEqStr (get "name" error) "CastError"
               then handleCastError error else error in
  match (if strictEqNum (get "code" error) 11000
         then handleDuplicateFieldsError error else Return error) with
  | Throw e => Throw e
  | Return error =>
      match (if strictEqStr (get "name" error) "ValidationError"
             then handleValidationError error else Return error) with
      | Throw e => Throw e
      | Return error =>
          let error := if strictEqStr (get "name" error) "JsonWebTokenError"
                       then handleJWTError else error in
          Return (if strictEqStr (get "name" error) "TokenExpiredError"
                  then handleJWTExpiredError else error)
      end
  end.

(** [err.statusCode || 500] and [err.status || 'error']. *)
Definition resolvedCode (err : JsVal) : JsVal :=
  js_or (get "statusCode" err) (JNum 500).

Definition resolvedStatus (err : JsVal) : JsVal :=
  js_or (get "status" err) (JStr "error").

(** The copy the production branch works on. *)
Definition copied (err : JsVal) : JsVal :=
  set "message" (get "message" (normalize err)) (spread (normalize err)).

(** A response carries a resolved status code and a resolved [status]. *)
Definition resolved (ev : Event) : Prop :=
  match ev with
  | StatusJson code body =>
      truthy code = true /\ truthy (get "status" body) = true
  | _ => True
  end.



(** A response, and an exception that leaves the program. *)
Definition isResponse (ev : Event) : bool :=
  match ev with
  | StatusJson _ _ | Json _ | Send _ => true
  | Verify _ | ConsoleError _ | Escaped _ => false
  end.

Definition isEscape (ev : Event) : bool :=
  match ev with
  | Escaped _ => true
  | _ => false
  end.

Definition responses (es : list Event) : nat :=
  List.length (filter isResponse es).

Definition escapes (es : list Event) : nat :=
  List.length (filter isEscape es).

(** The result [r] of a handler started in [c]: it returned, it left the
    deployment mode alone, and what it added to the events holds exactly
    one response and no escaped exception. *)
Definition respondsOnce (c : Ctx) (r : Result unit * Ctx) : Prop :=
  fst r = Return tt
  /\ NODE_ENV (snd r) = NODE_ENV c
  /\ exists es : list Event,
       events (snd r) = (events c ++ es)%list
       /\ responses es = 1%nat /\ escapes es = 0%nat.

(** The same with one terminal event of either kind: one response, or one
    escaped exception. *)
Definition settles (c : Ctx) (r : Result unit * Ctx) : Prop :=
  fst r = Return tt
  /\ NODE_ENV (snd r) = NODE_ENV c
  /\ exists es : list Event,
       events (snd r) = (events c ++ es)%list
       /\ (responses es + escapes es = 1)%nat.

(** The events of a refusal by the gate: perhaps the verifier call and the
    log, then one of the two 401 answers. *)
Definition refusal (es : list Event) : Prop :=
  exists pre message,
    es = (pre ++ [unauthorizedAnswer message])%list
    /\ (message = "Missing or invalid authorization token"
        \/ message = "Invalid authorization token")
    /\ responses pre = 0%nat /\ escapes pre = 0%nat.

(** The status code an [AppError] is built with, and the one it is answered
    with: [statusCode || 500]. *)
Definition builtCode (statusCode : option Z) : Z :=
  match statusCode with Some n => n | None => 500 end.

Definition answeredCode (statusCode : option Z) : Z :=
  if builtCode statusCode =? 0 then 500 else builtCode statusCode.

Definition builtStatus (statusCode : option Z) : string :=
  if startsWith (decimal (builtCode statusCode)) "4" then "fail" else "error".

(** No quote character in [s]. *)
Fixpoint noQuote (s : string) : bool :=
  match s with
  | EmptyString => true
  | String c s' => negb (isQuote c) && noQuote s'
  end.

(** [s] holds neither the quote [q], nor a backslash, nor a line
    terminator. *)
Fixpoint plainFor (q : ascii) (s : string) : bool :=
  match s with
  | EmptyString => true
  | String c s' =>
      negb (Ascii.eqb c q) && negb (Ascii.eqb c backslash)
      && negb (lineTerminator c) && plainFor q s'
  end.

(** [String.concat] with the arguments of [Array.prototype.join]. *)
Definition joinStrings (sep : string) (l : list string) : string :=
  String.concat sep l.

(** The integers that a double holds exactly and that the engine prints
    with all their digits: up to 2^53 - 1 in absolute value. *)
Definition safeInteger (n : Z) : bool := Z.abs n <=? 9007199254740991.

(** The values whose text in a template literal is fixed by the value
    alone and is the one [toStr] gives: [undefined], [null], a boolean, a
    string, a safe integer.  The text of an object is what its own
    [toString] makes of it. *)
Definition printable (v : JsVal) : bool :=
  match v with
  | JNum n => safeInteger n
  | JObj _ _ _ _ => false
  | _ => true
  end.

(** ASCII text: every character is below 128. *)
Fixpoint asciiText (s : string) : bool :=
  match s with
  | EmptyString => true
  | String c s' => (nat_of_ascii c <? 128)%nat && asciiText s'
  end.

(** ** Strings: prefixes and [split] *)

Lemma append_nil_r (s : string) : s ++ EmptyString = s.
Proof. induction s as [|ch s IH]; simpl; [reflexivity | now rewrite IH]. Qed.

Lemma append_assoc (a b d : string) : (a ++ b) ++ d = a ++ (b ++ d).
Proof. induction a as [|ch a IH]; simpl; [reflexivity | now rewrite IH]. Qed.

Lemma prefix_append (p r : string) : String.prefix p (p ++ r) = true.
Proof.
  induction p as [|ch p IH]; simpl.
  - now destruct r.
  - destruct (ascii_dec ch ch) as [_|ne]; [exact IH | now elim ne].
Qed.

Lemma prefix_inv (p s : string) :
  String.prefix p s = true -> exists r, s = p ++ r.
Proof.
  revert s; induction p as [|ch p IH]; intros s H.
  - now exists s.
  - destruct s as [|ch' s]; simpl in H; [discriminate|].
    destruct (ascii_dec ch ch') as [->|]; [|discriminate].
    destruct (IH _ H) as [r ->]. now exists r.
Qed.

Lemma startsWith_iff (s p : string) :
  startsWith s p = true <-> exists r, s = p ++ r.
Proof.
  unfold startsWith; split.
  - apply prefix_inv.
  - intros [r ->]. apply prefix_append.
Qed.

(** The characters of a matched separator are dropped. *)
Lemma split_from_skip (sep a s cur : string) :
  split_from sep (String.length a) cur (a ++ s) = split_from sep 0 cur s.
Proof. induction a as [|ch a IH]; simpl; [reflexivity | exact IH]. Qed.

Lemma split_separator (sep s : string) :
  sep <> EmptyString ->
  split (sep ++ s) sep = EmptyString :: split s sep.
Proof.
  intros ne. destruct sep as [|ch sep]; [now elim ne|].
  unfold split.
  change ((String ch sep ++ s)) with (String ch (sep ++ s)).
  cbn [split_from].
  change (String ch (sep ++ s)) with (String ch sep ++ s).
  rewrite prefix_append.
  replace (String.length (String ch sep) - 1)%nat with (String.length sep)
    by (simpl; lia).
  now rewrite split_from_skip.
Qed.

(** The first piece of a text without separator is the whole text. *)
Lemma split_from_no_occurrence (sep s cur : string) :
  sep <> EmptyString -> ~ occurs sep s ->
  split_from sep 0 cur s = [cur ++ s].
Proof.
  intros ne. revert cur.
  induction s as [|ch s IH]; intros cur no; cbn [split_from].
  - now rewrite append_nil_r.
  - destruct (String.prefix sep (String ch s)) eqn:P.
    + destruct (prefix_inv _ _ P) as [r E].
      elim no. exists EmptyString, r. exact E.
    + rewrite IH.
      * now rewrite append_assoc.
      * intros [a [b E]]. apply no.
        exists (String ch a), b. simpl. now rewrite E.
Qed.

Lemma split_from_nonempty (sep : string) (k : nat) (cur s : string) :
  split_from sep k cur s <> [].
Proof.
  revert k cur. induction s as [|ch s IH]; intros k cur; cbn [split_from].
  - discriminate.
  - destruct k; [|apply IH].
    destruct (String.prefix sep (String ch s)); [discriminate | apply IH].
Qed.

(** Otherwise it stops where the separator first occurs. *)
Lemma split_from_first (sep s cur : string) :
  exists piece rest,
    split_from sep 0 cur s = (cur ++ piece) :: rest
    /\ (rest = [] -> piece = s)
    /\ (rest <> [] -> exists b, s = piece ++ sep ++ b).
Proof.
  revert cur. induction s as [|ch s IH]; intros cur; cbn [split_from].
  - exists EmptyString, []. rewrite append_nil_r.
    split; [reflexivity|]. split; [reflexivity | now intros []].
  - destruct (String.prefix sep (String ch s)) eqn:P.
    + destruct (prefix_inv _ _ P) as [r E].
      exists EmptyString. eexists. rewrite append_nil_r.
      split; [reflexivity|]. split.
      * intros e. now apply split_from_nonempty in e.
      * intros _. exists r. exact E.
    + destruct (IH (cur ++ String ch EmptyString)) as [piece [rest [E [H1 H2]]]].
      exists (String ch piece), rest. rewrite E, append_assoc.
      split; [reflexivity|]. split.
      * intros e. now rewrite (H1 e).
      * intros e. destruct (H2 e) as [b ->]. now exists b.
Qed.

(** ** The wrapper on an [async] handler *)

(** Around an [async] function the wrapper is a [catch]: what the body
    throws goes to [next]. *)
Lemma catchAsync_async (body : Next -> M unit) (next : Next) (c : Ctx) :
  catchAsync (async body) next c
  = tryCatch (body next) (fun e => next (Some e)) c.
Proof.
  unfold catchAsync, async, tryCatch, bind, ret.
  now destruct (body next c) as [[[]|e] c'].
Qed.

(** ** The bearer credential *)

Lemma bearerToken_piece (t : string) :
  exists piece rest,
    bearerToken ("Bearer " ++ t) = JStr piece
    /\ split t "Bearer " = piece :: rest
    /\ (rest = [] -> piece = t)
    /\ (rest <> [] -> exists b, t = piece ++ "Bearer " ++ b).
Proof.
  unfold bearerToken.
  rewrite split_separator by discriminate.
  destruct (split_from_first "Bearer " t EmptyString)
    as [piece [rest [E [H1 H2]]]].
  exists piece, rest. unfold split. rewrite E. simpl. auto.
Qed.

(** A token in which the scheme text does not occur again is passed on
    whole. *)
Lemma bearerToken_exact (t : string) :
  ~ occurs "Bearer " t -> bearerToken ("Bearer " ++ t) = JStr t.
Proof.
  intros no. unfold bearerToken.
  rewrite split_separator by discriminate.
  unfold split. now rewrite split_from_no_occurrence.
Qed.

Lemma bearer_header_truthy (h : string) :
  startsWith h "Bearer " = true -> truthy (JStr h) = true.
Proof.
  intros H. apply startsWith_iff in H. destruct H as [r ->]. reflexivity.
Qed.

(** ** The auth gate *)

Ltac gate_steps :=
  unfold firebaseAuthMiddleware, rejected, tryCatch, bind, getReq, await,
    unauthorized, unauthorizedAnswer, emit, setUser, ret, throw, answered;
  cbn [req NODE_ENV events fst snd].

(** What the router adds to the gate changes nothing when the gate
    returns. *)
Lemma protectedRouter_returns (next : Next) (c c' : Ctx) :
  firebaseAuthMiddleware next c = (Return tt, c') ->
  protectedRouter next c = (Return tt, c').
Proof. intros H. unfold protectedRouter, tryCatch. now rewrite H. Qed.

Lemma app_protected (c : Ctx) (route : ProfileRoute) :
  dispatch (method (req c)) (originalUrl (req c)) = ProfileMount route ->
  app c = protectedRouter (profileRoutes route) c.
Proof. intros D. unfold app, bind, getReq. now rewrite D. Qed.

Lemma stopsWith_gate (c : Ctx) (es : list Event) :
  (forall next : Next, firebaseAuthMiddleware next c = answered c es) ->
  stopsWith c es.
Proof.
  intros G. split; [exact G|]. intros route D.
  rewrite (app_protected c D). apply protectedRouter_returns, G.
Qed.

Lemma gate_missing (next : Next) (c : Ctx) :
  authorization (req c) = None ->
  firebaseAuthMiddleware next c =
    answered c [unauthorizedAnswer "Missing or invalid authorization token"].
Proof. intros A. gate_steps. now rewrite A. Qed.

Lemma gate_malformed (next : Next) (c : Ctx) (h : string) :
  authorization (req c) = Some h ->
  startsWith h "Bearer " = false ->
  firebaseAuthMiddleware next c =
    answered c [unauthorizedAnswer "Missing or invalid authorization token"].
Proof. intros A P. gate_steps. now rewrite A, P, orb_true_r. Qed.

Lemma gate_rejected (next : Next) (c : Ctx) (h : string) (e : JsVal) :
  authorization (req c) = Some h ->
  startsWith h "Bearer " = true ->
  verifyIdToken (bearerToken h) = Rejected e ->
  firebaseAuthMiddleware next c =
    answered c
      [Verify (bearerToken h);
       ConsoleError [JStr "Error validating Firebase token:"; e];
       unauthorizedAnswer "Invalid authorization token"].
Proof.
  intros A P V. gate_steps.
  rewrite A, P, (bearer_header_truthy h P). cbn [negb orb].
  cbn [req NODE_ENV events]. rewrite V. cbn [req NODE_ENV events].
  now rewrite <- !app_assoc.
Qed.

Lemma gate_no_identity (next : Next) (c : Ctx) (h : string) (v : JsVal) :
  authorization (req c) = Some h ->
  startsWith h "Bearer " = true ->
  verifyIdToken (bearerToken h) = Resolved v ->
  truthy v = false ->
  firebaseAuthMiddleware next c =
    answered c
      [Verify (bearerToken h);
       unauthorizedAnswer "Invalid authorization token"].
Proof.
  intros A P V F. gate_steps.
  rewrite A, P, (bearer_header_truthy h P). cbn [negb orb].
  cbn [req NODE_ENV events]. rewrite V, F. cbn [negb req NODE_ENV events].
  now rewrite <- !app_assoc.
Qed.

(** When the extracted token is accepted the gate attaches the identity
    and runs the next stage inside its [try] block. *)
Lemma gate_accepts (next : Next) (c : Ctx) (h : string) (v : JsVal) :
  accepts c h v ->
  firebaseAuthMiddleware next c = tryCatch (next None) rejected (verified c h v).
Proof.
  intros [A [P [V T]]]. gate_steps.
  rewrite A, P, (bearer_header_truthy h P). cbn [negb orb].
  cbn [req NODE_ENV events]. rewrite V, T. reflexivity.
Qed.

(** The whole application, for an authenticated request under the protected
    mount: when the route's handler returns, that is the outcome. *)
Lemma app_authenticated (c c' : Ctx) (h : string) (v : JsVal)
      (route : ProfileRoute) :
  dispatch (method (req c)) (originalUrl (req c)) = ProfileMount route ->
  accepts c h v ->
  profileRoutes route None (verified c h v) = (Return tt, c') ->
  app c = (Return tt, c').
Proof.
  intros D A H. rewrite (app_protected c D).
  apply protectedRouter_returns. rewrite (gate_accepts _ A).
  unfold tryCatch. now rewrite H.
Qed.

(** X17.  The refusals of the gate, in terms of the token it extracts,
    [authHeader.split('Bearer ')[1]].  The request is answered with one 401
    and the next stage is not run, with the body
    [{error: 'Unauthorized', message}]: the message is
    [Missing or invalid authorization token] when the header is absent or
    does not start with the scheme, and [Invalid authorization token] when
    the verifier rejects the extracted token (after the rejection is
    logged) or resolves it to no identity.  That answer is the whole
    outcome for every [next] the gate may be given, and for the
    application on every request under the protected mount; the request is
    left without identity. *)
Theorem auth_gate_unauthorized (c : Ctx) :
  (authorization (req c) = None ->
   stopsWith c
     [unauthorizedAnswer "Missing or invalid authorization token"])
  /\ (forall h,
       authorization (req c) = Some h ->
       startsWith h "Bearer " = false ->
       stopsWith c
         [unauthorizedAnswer "Missing or invalid authorization token"])
  /\ (forall h e,
       authorization (req c) = Some h ->
       startsWith h "Bearer " = true ->
       verifyIdToken (bearerToken h) = Rejected e ->
       stopsWith c
         [Verify (bearerToken h);
          ConsoleError [JStr "Error validating Firebase token:"; e];
          unauthorizedAnswer "Invalid authorization token"])
  /\ (forall h v,
       authorization (req c) = Some h ->
       startsWith h "Bearer " = true ->
       verifyIdToken (bearerToken h) = Resolved v ->
       truthy v = false ->
       stopsWith c
         [Verify (bearerToken h);
          unauthorizedAnswer "Invalid authorization token"]).
Proof.
  split; [|split; [|split]].
  - intros A. apply stopsWith_gate. intros next. now apply gate_missing.
  - intros h A P. apply stopsWith_gate. intros next.
    now apply gate_malformed with (h := h).
  - intros h e A P V. apply stopsWith_gate. intros next.
    now apply gate_rejected.
  - intros h v A P V F. apply stopsWith_gate. intros next.
    now apply gate_no_identity with (v := v).
Qed.

(** X18.  When the verifier resolves the token the gate extracts,
    [authHeader.split('Bearer ')[1]], to an identity [v], the gate attaches
    exactly [v] to the request and then runs the next stage from that
    context, inside its [try] block: the subject id a handler reads from
    [req.user] is the verifier's.  Run through the application, the details
    route answers with that identity. *)
Theorem auth_gate_attaches_identity (next : Next) (c : Ctx) (h : string)
        (v : JsVal) :
  authorization (req c) = Some h ->
  startsWith h "Bearer " = true ->
  verifyIdToken (bearerToken h) = Resolved v ->
  truthy v = true ->
  user (req (verified c h v)) = v
  /\ optMember "uid" (user (req (verified c h v))) = get "uid" v
  /\ firebaseAuthMiddleware next c
     = tryCatch (next None) rejected (verified c h v)
  /\ (dispatch (method (req c)) (originalUrl (req c))
      = ProfileMount ProfileDetails ->
      app c =
        answered (verified c h v)
          [StatusJson (JNum 200)
             (obj [("status", JStr "success");
                   ("data", obj [("user", v)])])]).
Proof.
  intros A P V T.
  assert (Acc : accepts c h v) by (repeat split; assumption).
  split; [reflexivity|]. split.
  - cbn [verified req user attachUser]. destruct v; try discriminate; reflexivity.
  - split; [now apply gate_accepts|].
    intros D. apply (app_authenticated D Acc).
    unfold profileRoutes, getUserProfile. rewrite catchAsync_async.
    unfold tryCatch, bind, getReq, emit, answered.
    cbn [verified req user attachUser NODE_ENV events]. now rewrite T.
Qed.

(** ** The error model *)

Lemma decimal_leading_four (n : Z) :
  100 <= n <= 599 ->
  startsWith (decimal n) "4" = (400 <=? n) && (n <? 500).
Proof.
  intros R.
  pose (ok := fun k : nat =>
    Bool.eqb (startsWith (decimal (Z.of_nat k)) "4")
             ((400 <=? Z.of_nat k) && (Z.of_nat k <? 500))).
  assert (A : forallb ok (seq 100 500) = true) by (vm_compute; reflexivity).
  rewrite forallb_forall in A.
  assert (I : In (Z.to_nat n) (seq 100 500)) by (apply in_seq; lia).
  specialize (A _ I). unfold ok in A.
  rewrite Z2Nat.id in A by lia.
  now apply Bool.eqb_prop.
Qed.

(** C6.  For a status code between 100 and 599 the constructor stores the
    code and derives [status]: [fail] exactly when the code is in
    [400, 500), [error] otherwise. *)
Theorem app_error_status (message : string) (n : Z) :
  100 <= n <= 599 ->
  get "statusCode" (AppError message (Some n)) = JNum n
  /\ (get "status" (AppError message (Some n)) = JStr "fail"
      <-> 400 <= n < 500)
  /\ (get "status" (AppError message (Some n)) = JStr "error"
      <-> ~ 400 <= n < 500).
Proof.
  intros R. split; [reflexivity|].
  assert (E : get "status" (AppError message (Some n))
              = JStr (if (400 <=? n) && (n <? 500) then "fail" else "error")).
  { unfold AppError. cbn [get getProp lookup String.eqb Ascii.eqb Bool.eqb].
    now rewrite decimal_leading_four. }
  rewrite E.
  destruct (400 <=? n) eqn:L; destruct (n <? 500) eqn:U; cbn [andb];
    (split; split; intros H; try discriminate; try reflexivity; try lia;
     exfalso; lia).
Qed.

(** ** Objects: reads after writes *)

Lemma lookup_update_same (k : string) (v : JsVal) (ps : Props) :
  lookup k (update k v ps) = Some v.
Proof.
  induction ps as [|[k' v'] ps IH]; simpl.
  - now rewrite String.eqb_refl.
  - destruct (String.eqb k k') eqn:E; simpl; rewrite E; [reflexivity | exact IH].
Qed.

Lemma lookup_update_other (k k' : string) (v : JsVal) (ps : Props) :
  k <> k' -> lookup k (update k' v ps) = lookup k ps.
Proof.
  intros ne. induction ps as [|[k2 v2] ps IH]; simpl.
  - apply String.eqb_neq in ne. now rewrite ne.
  - destruct (String.eqb k' k2) eqn:E; simpl.
    + apply String.eqb_eq in E. subst k2.
      apply String.eqb_neq in ne. now rewrite ne.
    + now rewrite IH.
Qed.

(** An assignment to a key that is not an [Error] slot lands among the own
    enumerable properties. *)
Lemma set_own (k : string) (v : JsVal) (own : Props) (m s : option JsVal)
      (inh : Props) :
  k <> "message" -> k <> "stack" ->
  set k v (JObj own m s inh) = JObj (update k v own) m s inh.
Proof.
  intros n1 n2. unfold set.
  apply String.eqb_neq in n1, n2. rewrite n1, n2.
  now destruct (lookup k own).
Qed.

(** So does any assignment to a plain object. *)
Lemma set_plain (k : string) (v : JsVal) (own inh : Props) :
  set k v (JObj own None None inh) = JObj (update k v own) None None inh.
Proof.
  unfold set. destruct (lookup k own); [reflexivity|].
  cbn [isSome]. now rewrite !andb_false_r.
Qed.

Lemma get_own (k : string) (v : JsVal) (own : Props) (m s : option JsVal)
      (inh : Props) :
  lookup k own = Some v -> get k (JObj own m s inh) = v.
Proof. intros H. unfold get, getProp. now rewrite H. Qed.

Lemma js_or_truthy (a b : JsVal) :
  truthy b = true -> truthy (js_or a b) = true.
Proof. intros H. unfold js_or. now destruct (truthy a) eqn:E. Qed.

(** *** Normalisation *)

Lemma normalize_object (own : Props) (m s : option JsVal) (inh : Props) :
  normalize (JObj own m s inh) =
    JObj (update "status" (resolvedStatus (JObj own m s inh))
            (update "statusCode" (resolvedCode (JObj own m s inh)) own))
         m s inh.
Proof.
  unfold normalize, resolvedCode, resolvedStatus.
  rewrite set_own by discriminate.
  rewrite set_own by discriminate.
  f_equal. f_equal.
  cbn [get]. unfold getProp.
  rewrite lookup_update_other by discriminate. reflexivity.
Qed.

Lemma normalize_statusCode (own : Props) (m s : option JsVal) (inh : Props) :
  get "statusCode" (normalize (JObj own m s inh))
  = resolvedCode (JObj own m s inh).
Proof.
  rewrite normalize_object. apply get_own.
  rewrite lookup_update_other by discriminate. apply lookup_update_same.
Qed.

Lemma normalize_status (own : Props) (m s : option JsVal) (inh : Props) :
  get "status" (normalize (JObj own m s inh))
  = resolvedStatus (JObj own m s inh).
Proof. rewrite normalize_object. apply get_own, lookup_update_same. Qed.

(** What the copy of the production branch holds: the own enumerable
    properties of the normalised error and its message. *)
Lemma copied_object (own : Props) (m s : option JsVal) (inh : Props) :
  copied (JObj own m s inh) =
    JObj (update "message" (get "message" (normalize (JObj own m s inh)))
            (update "status" (resolvedStatus (JObj own m s inh))
               (update "statusCode" (resolvedCode (JObj own m s inh)) own)))
         None None [].
Proof.
  unfold copied. rewrite normalize_object at 2. cbn [spread].
  now rewrite set_plain.
Qed.

Lemma copied_lookup (k : string) (own : Props) (m s : option JsVal)
      (inh : Props) :
  k <> "message" -> k <> "status" -> k <> "statusCode" ->
  get k (copied (JObj own m s inh)) = orUndefined (lookup k own).
Proof.
  intros n1 n2 n3. rewrite copied_object. cbn [get]. unfold getProp.
  rewrite !lookup_update_other by assumption.
  destruct (lookup k own); [reflexivity|].
  unfold slot. apply String.eqb_neq in n1. rewrite n1.
  now destruct (String.eqb k "stack").
Qed.

(** *** The two branches of the responder *)

Lemma globalErrorHandler_development (err : JsVal) (c : Ctx) :
  isObject err = true -> isProduction (NODE_ENV c) = false ->
  globalErrorHandler err c = sendErrorDev (normalize err) c.
Proof.
  intros O D. unfold globalErrorHandler, bind, getEnv.
  rewrite O. cbn [negb]. now rewrite D.
Qed.

Lemma globalErrorHandler_production (err : JsVal) (c : Ctx) :
  isObject err = true -> isProduction (NODE_ENV c) = true ->
  globalErrorHandler err c =
    match reclassify (copied err) with
    | Return error => sendErrorProd error c
    | Throw e => threw c e
    end.
Proof.
  intros O P. unfold globalErrorHandler, bind, getEnv, ret, lift, threw.
  rewrite O. cbn [negb]. rewrite P.
  unfold reclassify. fold (copied err).
  destruct (strictEqStr (get "name" (copied err)) "CastError");
    match goal with
    | |- context [strictEqNum (get "code" ?e) 11000] =>
        destruct (strictEqNum (get "code" e) 11000);
        [destruct (handleDuplicateFieldsError e) as [e1|]; [|reflexivity]|]
    end;
    match goal with
    | |- context [strictEqStr (get "name" ?e) "ValidationError"] =>
        destruct (strictEqStr (get "name" e) "ValidationError");
        [destruct (handleValidationError e) as [e2|]; reflexivity
        | reflexivity]
    end.
Qed.

(** ** The quoted value of a duplicate-key message *)

Lemma backslash_one_line (ch : ascii) :
  Ascii.eqb ch backslash = true -> lineTerminator ch = false.
Proof. intros E. apply Ascii.eqb_eq in E. now subst ch. Qed.







(** ** Reclassification *)

Lemma AppError_code (message : string) (n : option Z) :
  strictEqNum (get "code" (AppError message n)) 11000 = false.
Proof. reflexivity. Qed.

Lemma AppError_name (message : string) (n : option Z) (k : string) :
  k <> "Error" -> strictEqStr (get "name" (AppError message n)) k = false.
Proof.
  intros ne. change (get "name" (AppError message n)) with (JStr "Error").
  cbn [strictEqStr]. apply String.eqb_neq. congruence.
Qed.

Lemma handleDuplicateFieldsError_returns (err v : JsVal) :
  handleDuplicateFieldsError err = Return v ->
  exists message, v = AppError message (Some 400).
Proof.
  unfold handleDuplicateFieldsError.
  destruct (get "errmsg" err) as [| | | |s|]; try discriminate.
  destruct (regexMatch s); [|discriminate].
  intros H. injection H as <-. eexists. reflexivity.
Qed.

Lemma handleValidationError_returns (err v : JsVal) :
  handleValidationError err = Return v ->
  exists message, v = AppError message (Some 400).
Proof.
  unfold handleValidationError.
  destruct (objectValues (get "errors" err)); [|discriminate].
  destruct (messagesOf a); [|discriminate].
  intros H. injection H as <-. eexists. reflexivity.
Qed.

(** An error the program built is not reclassified again. *)
Lemma reclassify_AppError (message : string) (n : option Z) :
  reclassify (AppError message n) = Return (AppError message n).
Proof.
  unfold reclassify.
  rewrite (AppError_name message n (k := "CastError")) by discriminate.
  rewrite AppError_code.
  rewrite (AppError_name message n (k := "ValidationError")) by discriminate.
  rewrite (AppError_name message n (k := "JsonWebTokenError")) by discriminate.
  now rewrite (AppError_name message n (k := "TokenExpiredError")) by discriminate.
Qed.

(** What reclassification returns is the copy itself or a fresh
    [AppError] with code 400 or 401. *)
Lemma reclassify_cases (error e' : JsVal) :
  reclassify error = Return e' ->
  e' = error
  \/ exists message n, (n = 400 \/ n = 401) /\ e' = AppError message (Some n).
Proof.
  unfold reclassify.
  destruct (strictEqStr (get "name" error) "CastError").
  - unfold handleCastError.
    rewrite AppError_code.
    rewrite AppError_name by discriminate.
    rewrite AppError_name by discriminate.
    rewrite AppError_name by discriminate.
    intros H. injection H as <-. right. eexists. exists 400. now split; [left|].
  - destruct (strictEqNum (get "code" error) 11000).
    + destruct (handleDuplicateFieldsError error) as [e1|] eqn:D; [|discriminate].
      destruct (handleDuplicateFieldsError_returns _ D) as [msg ->].
      rewrite AppError_name by discriminate.
      rewrite AppError_name by discriminate.
      rewrite AppError_name by discriminate.
      intros H. injection H as <-. right. exists msg, 400. now split; [left|].
    + destruct (strictEqStr (get "name" error) "ValidationError").
      * destruct (handleValidationError error) as [e1|] eqn:D; [|discriminate].
        destruct (handleValidationError_returns _ D) as [msg ->].
        rewrite AppError_name by discriminate.
        rewrite AppError_name by discriminate.
        intros H. injection H as <-. right. exists msg, 400. now split; [left|].
      * destruct (strictEqStr (get "name" error) "JsonWebTokenError").
        -- unfold handleJWTError.
           rewrite AppError_name by discriminate.
           intros H. injection H as <-. right. eexists. exists 401.
           now split; [right|].
        -- destruct (strictEqStr (get "name" error) "TokenExpiredError");
             intros H; injection H as <-; [right | now left].
           eexists. exists 401. now split; [right|].
Qed.

Lemma sendErrorProd_operational (err : JsVal) (c : Ctx) :
  truthy (get "isOperational" err) = true ->
  sendErrorProd err c =
    answered c
      [StatusJson (get "statusCode" err)
         (obj [("status", get "status" err);
               ("message", get "message" err)])].
Proof. intros T. unfold sendErrorProd. now rewrite T. Qed.

Lemma sendErrorProd_unexpected (err : JsVal) (c : Ctx) :
  truthy (get "isOperational" err) = false ->
  sendErrorProd err c =
    answered c
      [ConsoleError [JStr "ERROR 💥"; err];
       StatusJson (JNum 500)
         (obj [("status", JStr "error");
               ("message", JStr "Something went wrong")])].
Proof.
  intros T. unfold sendErrorProd. rewrite T.
  unfold bind, emit, answered. cbn [req NODE_ENV events].
  now rewrite <- app_assoc.
Qed.

Lemma sendErrorDev_answer (err : JsVal) (c : Ctx) :
  sendErrorDev err c =
    answered c
      [StatusJson (get "statusCode" err)
         (obj [("status", get "status" err);
               ("error", err);
               ("message", get "message" err);
               ("stack", get "stack" err)])].
Proof. reflexivity. Qed.

Lemma strictEqStr_lookup (o : option JsVal) (k : string) :
  o <> Some (JStr k) -> strictEqStr (orUndefined o) k = false.
Proof.
  intros ne. destruct o as [[| | | |s|]|]; try reflexivity.
  cbn [orUndefined strictEqStr]. apply String.eqb_neq. congruence.
Qed.

Lemma strictEqNum_lookup (o : option JsVal) (n : Z) :
  o <> Some (JNum n) -> strictEqNum (orUndefined o) n = false.
Proof.
  intros ne. destruct o as [[| | |n'| |]|]; try reflexivity.
  cbn [orUndefined strictEqNum]. apply Z.eqb_neq. congruence.
Qed.

(** ** The global error responder *)

Lemma threw_no_event (c : Ctx) (e : JsVal) :
  threw c e = (Throw e, mkCtx (req c) (NODE_ENV c) (events c ++ [])).
Proof. unfold threw. destruct c. cbn. now rewrite app_nil_r. Qed.

Lemma normalize_other (k : string) (own : Props) (m s : option JsVal)
      (inh : Props) :
  k <> "statusCode" -> k <> "status" ->
  get k (normalize (JObj own m s inh)) = get k (JObj own m s inh).
Proof.
  intros n1 n2. rewrite normalize_object. cbn [get]. unfold getProp.
  now rewrite !lookup_update_other by assumption.
Qed.

Lemma copied_message (own : Props) (m s : option JsVal) (inh : Props) :
  get "message" (copied (JObj own m s inh)) = get "message" (JObj own m s inh).
Proof.
  rewrite copied_object.
  erewrite get_own by apply lookup_update_same.
  now apply normalize_other.
Qed.

Lemma copied_statusCode (own : Props) (m s : option JsVal) (inh : Props) :
  get "statusCode" (copied (JObj own m s inh))
  = resolvedCode (JObj own m s inh).
Proof.
  rewrite copied_object. apply get_own.
  rewrite !lookup_update_other by discriminate. apply lookup_update_same.
Qed.

Lemma copied_status (own : Props) (m s : option JsVal) (inh : Props) :
  get "status" (copied (JObj own m s inh))
  = resolvedStatus (JObj own m s inh).
Proof.
  rewrite copied_object. apply get_own.
  rewrite lookup_update_other by discriminate. apply lookup_update_same.
Qed.


(** C4, as amended.  In production mode an error whose own enumerable
    [name] is [JsonWebTokenError], and whose own [code] is not 11000, is
    answered with 401 and the fixed invalid-token message; with the name
    [TokenExpiredError], with 401 and the fixed expired-token message. *)
Theorem token_errors_reclassified (own : Props) (m s : option JsVal)
        (inh : Props) (c : Ctx) :
  isProduction (NODE_ENV c) = true ->
  lookup "code" own <> Some (JNum 11000) ->
  (lookup "name" own = Some (JStr "JsonWebTokenError") ->
   globalErrorHandler (JObj own m s inh) c =
     answered c
       [StatusJson (JNum 401)
          (obj [("status", JStr "fail");
                ("message", JStr "Invalid token. Please log in again.")])])
  /\ (lookup "name" own = Some (JStr "TokenExpiredError") ->
      globalErrorHandler (JObj own m s inh) c =
        answered c
          [StatusJson (JNum 401)
             (obj [("status", JStr "fail");
                   ("message",
                    JStr "Your token has expired! Please log in again.")])]).
Proof.
  intros P C.
  assert (Code : strictEqNum (get "code" (copied (JObj own m s inh))) 11000
                 = false).
  { rewrite copied_lookup by discriminate. now apply strictEqNum_lookup. }
  split; intros N;
    rewrite globalErrorHandler_production by (reflexivity || assumption);
    unfold reclassify; cbv zeta;
    repeat first
      [ rewrite (copied_lookup (k := "name")) by discriminate
      | rewrite N
      | rewrite Code
      | progress cbn [orUndefined strictEqStr String.eqb Ascii.eqb Bool.eqb] ];
    reflexivity.
Qed.

Lemma resolvedCode_truthy (err : JsVal) : truthy (resolvedCode err) = true.
Proof. now apply js_or_truthy. Qed.

Lemma resolvedStatus_truthy (err : JsVal) : truthy (resolvedStatus err) = true.
Proof. now apply js_or_truthy. Qed.

Lemma globalErrorHandler_not_object (err : JsVal) (c : Ctx) :
  isObject err = false ->
  globalErrorHandler err c
  = threw c (TypeError "Cannot create property 'statusCode'").
Proof. intros O. unfold globalErrorHandler. now rewrite O. Qed.

Lemma reclassified_resolved (own : Props) (m s : option JsVal) (inh : Props)
      (error : JsVal) :
  reclassify (copied (JObj own m s inh)) = Return error ->
  truthy (get "statusCode" error) = true
  /\ truthy (get "status" error) = true.
Proof.
  intros R.
  destruct (reclassify_cases _ R) as [-> | [msg [n [[-> | ->] ->]]]].
  - rewrite copied_statusCode, copied_status.
    split; [apply resolvedCode_truthy | apply resolvedStatus_truthy].
  - now split.
  - now split.
Qed.

(** The responder returns exactly when it has sent one response, it has
    sent nothing when it throws, and every response carries a status code
    and a [status] that are set. *)
Lemma globalErrorHandler_resolved (err : JsVal) (c : Ctx) :
  exists r es,
    globalErrorHandler err c = (r, mkCtx (req c) (NODE_ENV c) (events c ++ es))
    /\ Forall resolved es
    /\ (r = Return tt -> responses es = 1%nat)
    /\ (r <> Return tt -> es = []).
Proof.
  destruct (isObject err) eqn:O.
  - destruct err as [| | | | |own m s inh]; try discriminate.
    destruct (isProduction (NODE_ENV c)) eqn:P.
    + rewrite globalErrorHandler_production by (reflexivity || assumption).
      destruct (reclassify (copied (JObj own m s inh))) as [error|e] eqn:R.
      * destruct (truthy (get "isOperational" error)) eqn:T.
        -- rewrite sendErrorProd_operational by assumption.
           eexists. eexists. split; [reflexivity|].
           split; [|split; [reflexivity | now intros N]].
           constructor; [exact (reclassified_resolved _ _ _ _ R) | constructor].
        -- rewrite sendErrorProd_unexpected by assumption.
           eexists. eexists. split; [reflexivity|].
           split; [|split; [reflexivity | now intros N]].
           repeat constructor.
      * rewrite threw_no_event. exists (Throw e), [].
        split; [reflexivity|]. split; [constructor|].
        split; [discriminate | reflexivity].
    + rewrite globalErrorHandler_development by (reflexivity || assumption).
      rewrite sendErrorDev_answer. eexists. eexists. split; [reflexivity|].
      split; [|split; [reflexivity | now intros N]].
      constructor; [|constructor].
      cbn [resolved obj get getProp lookup String.eqb Ascii.eqb Bool.eqb].
      rewrite normalize_statusCode, normalize_status.
      split; [apply resolvedCode_truthy | apply resolvedStatus_truthy].
  - rewrite globalErrorHandler_not_object by assumption.
    rewrite threw_no_event. eexists. exists [].
    split; [reflexivity|]. split; [constructor|].
    split; [discriminate | reflexivity].
Qed.

(** C5, as amended.  For an error object the two assignments resolve the
    status code and the status before anything is sent: an absent
    [statusCode] becomes 500 and an absent [status] becomes [error], a
    value that is set is kept, and both are set from then on.  The response
    carries resolved values.  In development mode there is exactly one,
    with the resolved status code and, in its body, the resolved status.
    In production mode, when reclassification returns [error], there is
    exactly one: for an operational [error] its status code and status,
    which are set, and which are the resolved ones when no test replaced
    the copy; otherwise the fixed 500 with the status [error].  When
    reclassification throws, the responder throws with it and sends
    nothing.  In every case the responder returns exactly when it has sent
    one response, and each response carries a status code and a status
    that are set. *)
Theorem error_defaults_resolved (own : Props) (m s : option JsVal)
        (inh : Props) (c : Ctx) :
  let err := JObj own m s inh in
  ((get "statusCode" err = JUndefined ->
    get "statusCode" (normalize err) = JNum 500)
   /\ (get "status" err = JUndefined ->
       get "status" (normalize err) = JStr "error")
   /\ (truthy (get "statusCode" err) = true ->
       get "statusCode" (normalize err) = get "statusCode" err)
   /\ (truthy (get "status" err) = true ->
       get "status" (normalize err) = get "status" err)
   /\ truthy (get "statusCode" (normalize err)) = true
   /\ truthy (get "status" (normalize err)) = true)
  /\ (isProduction (NODE_ENV c) = false ->
      globalErrorHandler err c =
        answered c
          [StatusJson (get "statusCode" (normalize err))
             (obj [("status", get "status" (normalize err));
                   ("error", normalize err);
                   ("message", get "message" err);
                   ("stack", get "stack" err)])])
  /\ (isProduction (NODE_ENV c) = true ->
      forall error,
        reclassify (copied err) = Return error ->
        globalErrorHandler err c =
          answered c
            (if truthy (get "isOperational" error)
             then [StatusJson (get "statusCode" error)
                     (obj [("status", get "status" error);
                           ("message", get "message" error)])]
             else [ConsoleError [JStr "ERROR 💥"; error];
                   StatusJson (JNum 500)
                     (obj [("status", JStr "error");
                           ("message", JStr "Something went wrong")])])
        /\ truthy (get "statusCode" error) = true
        /\ truthy (get "status" error) = true
        /\ (error = copied err ->
            get "statusCode" error = get "statusCode" (normalize err)
            /\ get "status" error = get "status" (normalize err)))
  /\ (isProduction (NODE_ENV c) = true ->
      forall e,
        reclassify (copied err) = Throw e ->
        globalErrorHandler err c = threw c e)
  /\ exists r es,
       globalErrorHandler err c
       = (r, mkCtx (req c) (NODE_ENV c) (events c ++ es))
       /\ Forall resolved es
       /\ (r = Return tt -> responses es = 1%nat)
       /\ (r <> Return tt -> es = []).
Proof.
  intros err. unfold err.
  split; [|split; [|split; [|split]]].
  - rewrite normalize_statusCode, normalize_status.
    unfold resolvedCode, resolvedStatus, js_or.
    split; [now intros ->|]. split; [now intros ->|].
    split; [now intros ->|]. split; [now intros ->|].
    split; [apply resolvedCode_truthy | apply resolvedStatus_truthy].
  - intros D.
    rewrite globalErrorHandler_development by (reflexivity || assumption).
    rewrite sendErrorDev_answer.
    rewrite (@normalize_other "message") by discriminate.
    now rewrite (@normalize_other "stack") by discriminate.
  - intros P error R.
    rewrite globalErrorHandler_production by (reflexivity || assumption).
    rewrite R.
    destruct (reclassified_resolved _ _ _ _ R) as [C S].
    split; [|split; [exact C|split; [exact S|]]].
    + destruct (truthy (get "isOperational" error)) eqn:T.
      * now apply sendErrorProd_operational.
      * now apply sendErrorProd_unexpected.
    + intros ->.
      rewrite copied_statusCode, copied_status.
      now rewrite normalize_statusCode, normalize_status.
  - intros P e R.
    rewrite globalErrorHandler_production by (reflexivity || assumption).
    now rewrite R.
  - apply globalErrorHandler_resolved.
Qed.


(** ** Errors the program raises itself *)

(** An [AppError] with a 4xx code that reaches the responder is answered
    with its code and message in both modes; in development mode the body
    also holds the error and its stack. *)
Lemma toErrorHandler_AppError (message : string) (n : Z) (c : Ctx) :
  n = 400 \/ n = 401 \/ n = 404 ->
  let err := AppError message (Some n) in
  toErrorHandler (Some err) c =
    answered c
      [StatusJson (JNum n)
         (if isProduction (NODE_ENV c)
          then obj [("status", JStr "fail"); ("message", JStr message)]
          else obj [("status", JStr "fail"); ("error", err);
                    ("message", JStr message);
                    ("stack", JStr stackTrace)])].
Proof.
  intros H err. unfold err, toErrorHandler, tryCatch.
  destruct (isProduction (NODE_ENV c)) eqn:P.
  - rewrite globalErrorHandler_production by (reflexivity || assumption).
    destruct H as [-> | [-> | ->]]; reflexivity.
  - rewrite globalErrorHandler_development by (reflexivity || assumption).
    destruct H as [-> | [-> | ->]]; reflexivity.
Qed.

(** ** The profile update route *)

(** The two outcomes of the handler, for a body that is an object. *)
Lemma updateUserProfile_cases (next : Next) (c : Ctx) (own : Props)
      (m s : option JsVal) (inh : Props) :
  body (req c) = JObj own m s inh ->
  updateUserProfile next c =
    catchAsync
      (async (fun nx =>
         if negb (truthy (get "name" (body (req c))))
            || negb (truthy (get "email" (body (req c))))
         then nx (Some (AppError "Please provide name and email" (Some 400)))
         else emit (StatusJson (JNum 200)
                (obj [("status", JStr "success");
                      ("data",
                       obj [("user",
                             obj [("uid", optMember "uid" (user (req c)));
                                  ("name", get "name" (body (req c)));
                                  ("email", get "email" (body (req c)))])])]))))
      next c.
Proof.
  intros B.
  unfold updateUserProfile. rewrite !catchAsync_async.
  unfold tryCatch, bind, getReq, lift, member.
  rewrite B. reflexivity.
Qed.

(** C7, as amended.  Take a request to the update route that passes the
    gate with the identity [v], and whose parsed body is an object.  When
    [name] or [email] is missing or falsy (the empty string, for one), the
    handler passes a 400 [AppError] with the message
    [Please provide name and email] to [next] and sends nothing itself; the
    application answers 400 with that message.  When both are truthy, the
    handler and so the application answer 200 with
    [{status: 'success', data: {user: {uid, name, email}}}], where [uid] is
    the subject id of [v] and [name] and [email] are the body fields. *)
Theorem update_profile_answers (c0 : Ctx) (h : string) (v : JsVal)
        (own : Props) (m s : option JsVal) (inh : Props) :
  dispatch (method (req c0)) (originalUrl (req c0))
  = ProfileMount ProfileUpdate ->
  accepts c0 h v ->
  body (req c0) = JObj own m s inh ->
  let c := verified c0 h v in
  let name := get "name" (body (req c0)) in
  let email := get "email" (body (req c0)) in
  let message := "Please provide name and email" in
  let err := AppError message (Some 400) in
  (truthy name = false \/ truthy email = false ->
   (forall next : Next,
      updateUserProfile next c
      = catchAsync (async (fun nx => nx (Some err))) next c)
   /\ app c0 =
        answered c
          [StatusJson (JNum 400)
             (if isProduction (NODE_ENV c0)
              then obj [("status", JStr "fail"); ("message", JStr message)]
              else obj [("status", JStr "fail"); ("error", err);
                        ("message", JStr message);
                        ("stack", JStr stackTrace)])])
  /\ (truthy name = true -> truthy email = true ->
      let answer :=
        StatusJson (JNum 200)
          (obj [("status", JStr "success");
                ("data",
                 obj [("user",
                       obj [("uid", get "uid" v);
                            ("name", name);
                            ("email", email)])])]) in
      (forall next : Next, updateUserProfile next c = answered c [answer])
      /\ app c0 = answered c [answer]).
Proof.
  intros D Acc B c name email message err.
  assert (Bc : body (req c) = JObj own m s inh) by exact B.
  assert (Uid : optMember "uid" (user (req c)) = get "uid" v).
  { destruct Acc as [_ [_ [_ T]]]. cbn [c verified req user attachUser].
    destruct v; try discriminate; reflexivity. }
  split.
  - intros F.
    assert (T : negb (truthy name) || negb (truthy email) = true).
    { destruct F as [-> | ->]; [reflexivity | apply orb_true_r]. }
    assert (H : forall next : Next,
      updateUserProfile next c
      = catchAsync (async (fun nx => nx (Some err))) next c).
    { intros next. rewrite (updateUserProfile_cases next c Bc).
      rewrite !catchAsync_async. unfold tryCatch.
      fold name email. cbn [c verified req body attachUser].
      fold name email. now rewrite T. }
    split; [exact H|].
    apply (app_authenticated D Acc). cbn [profileRoutes]. fold c.
    rewrite H, catchAsync_async. unfold tryCatch, err.
    now rewrite toErrorHandler_AppError by now left.
  - intros Tn Te answer.
    assert (H : forall next : Next, updateUserProfile next c = answered c [answer]).
    { intros next. rewrite (updateUserProfile_cases next c Bc).
      rewrite catchAsync_async. unfold tryCatch. rewrite Uid.
      cbn [c verified req body attachUser]. fold name email.
      now rewrite Tn, Te. }
    split; [exact H|].
    apply (app_authenticated D Acc). cbn [profileRoutes]. fold c. now rewrite H.
Qed.

(** ** Unmatched routes *)

(** C9, as amended.  The 404 handler passes to [next] an [AppError] with
    status code 404 and the message made of [Can't find], the original URL
    and [on this server!].  The application reaches it, and answers 404
    with that message, for a request that matches neither a route nor the
    protected mount, and for a request under the protected mount that
    matches none of its routes and whose header is the scheme followed by
    a credential [t] in which the scheme text does not occur again and
    which the verifier accepts as an identity [v]: the verifier is asked
    about [t], [v] is attached, and the 404 follows. *)
Theorem unmatched_route_404 (c : Ctx) :
  let message := "Can't find " ++ originalUrl (req c) ++ " on this server!" in
  let err := AppError message (Some 404) in
  let answer :=
    StatusJson (JNum 404)
      (if isProduction (NODE_ENV c)
       then obj [("status", JStr "fail"); ("message", JStr message)]
       else obj [("status", JStr "fail"); ("error", err);
                 ("message", JStr message);
                 ("stack", JStr stackTrace)]) in
  (get "statusCode" err = JNum 404
   /\ get "message" err = JStr message
   /\ get "status" err = JStr "fail"
   /\ get "isOperational" err = JBool true)
  /\ (forall next : Next, notFound next c = next (Some err) c)
  /\ (dispatch (method (req c)) (originalUrl (req c)) = NoRoute ->
      app c = answered c [answer])
  /\ (forall t v,
        dispatch (method (req c)) (originalUrl (req c))
        = ProfileMount ProfileNone ->
        authorization (req c) = Some ("Bearer " ++ t) ->
        ~ occurs "Bearer " t ->
        verifyIdToken (JStr t) = Resolved v ->
        truthy v = true ->
        app c =
          (Return tt,
           mkCtx (attachUser v (req c)) (NODE_ENV c)
                 (events c ++ [Verify (JStr t); answer]))).
Proof.
  intros message err answer.
  split; [now repeat split|]. split; [reflexivity|]. split.
  - intros D. unfold app, bind, getReq. cbn [req]. rewrite D.
    unfold notFound, bind, getReq. cbn [req]. fold message err.
    unfold err, answer. now rewrite toErrorHandler_AppError by now right; right.
  - intros t v D A O V T.
    assert (Acc : accepts c ("Bearer " ++ t) v).
    { split; [exact A|]. split; [apply prefix_append|].
      rewrite (bearerToken_exact O). now split. }
    apply (app_authenticated D Acc).
    cbn [profileRoutes]. unfold notFound, bind, getReq.
    cbn [verified req originalUrl attachUser]. fold message err.
    unfold err. rewrite toErrorHandler_AppError by now right; right.
    unfold answered, verified. cbn [req NODE_ENV events].
    rewrite (bearerToken_exact O), <- app_assoc. reflexivity.
Qed.

(** * Further properties of the program *)

(** ** The gate and the router around it *)

(** X1.  The gate never throws, whatever the next stage does: its [catch]
    block answers for every exception raised inside the [try] block.  So
    the [.catch(next)] that the protected router adds is never taken, and
    the router layer behaves as the gate alone. *)
Theorem gate_never_throws (next : Next) (c : Ctx) :
  (exists c', firebaseAuthMiddleware next c = (Return tt, c'))
  /\ protectedRouter next c = firebaseAuthMiddleware next c.
Proof.
  assert (R : exists c', firebaseAuthMiddleware next c = (Return tt, c')).
  { unfold firebaseAuthMiddleware, tryCatch.
    match goal with
    | |- context [match ?body c with _ => _ end] =>
        destruct (body c) as [[[]|e] c1]
    end.
    - now exists c1.
    - eexists. reflexivity. }
  split; [exact R|].
  destruct R as [c' R]. rewrite R. now apply protectedRouter_returns.
Qed.

(** X2.  An exception that the next stage throws after the gate has
    accepted the credential is caught by the gate: it is logged as a token
    validation error and the request is answered 401 with
    [Invalid authorization token], on top of whatever the next stage did
    before it threw.  The identity stays attached. *)
Theorem gate_answers_for_next_failure (next : Next) (c c' : Ctx)
        (h : string) (v e : JsVal) :
  accepts c h v ->
  next None (verified c h v) = (Throw e, c') ->
  firebaseAuthMiddleware next c =
    answered c'
      [ConsoleError [JStr "Error validating Firebase token:"; e];
       unauthorizedAnswer "Invalid authorization token"].
Proof.
  intros A T. rewrite (gate_accepts next A). unfold tryCatch. rewrite T.
  unfold rejected, unauthorized, unauthorizedAnswer, bind, emit, answered.
  cbn [req NODE_ENV events]. now rewrite <- app_assoc.
Qed.

(** A text in which the separator occurs splits into more than one piece. *)
Lemma split_from_occurrence (sep s cur : string) :
  sep <> EmptyString -> occurs sep s ->
  exists piece rest, split_from sep 0 cur s = piece :: rest /\ rest <> [].
Proof.
  intros ne [a [b E]]. revert s cur E.
  induction a as [|ch a IH]; intros s cur E.
  - cbn [append] in E. subst s.
    destruct sep as [|ch sep]; [now elim ne|].
    change (String ch sep ++ b) with (String ch (sep ++ b)).
    cbn [split_from].
    change (String ch (sep ++ b)) with (String ch sep ++ b).
    rewrite prefix_append.
    eexists. eexists. split; [reflexivity|]. apply split_from_nonempty.
  - subst s. change (String ch a ++ sep ++ b) with (String ch (a ++ sep ++ b)).
    cbn [split_from].
    destruct (String.prefix sep (String ch (a ++ sep ++ b))).
    + eexists. eexists. split; [reflexivity|]. apply split_from_nonempty.
    + now apply IH.
Qed.

(** So a text that [split] leaves in one piece does not hold the
    separator. *)
Lemma one_piece_no_occurrence (sep s piece : string) :
  sep <> EmptyString -> split s sep = [piece] -> ~ occurs sep s.
Proof.
  intros ne S O.
  destruct (split_from_occurrence EmptyString ne O) as [p [r [S' N]]].
  unfold split in S. rewrite S in S'. injection S' as _ <-. now elim N.
Qed.

Lemma append_length (a b : string) :
  String.length (a ++ b) = (String.length a + String.length b)%nat.
Proof. induction a as [|ch a IH]; cbn; [reflexivity | now rewrite IH]. Qed.

(** X3.  For a header that starts with the scheme, the credential handed
    to the verifier is always a string, and it is the whole remainder of
    the header exactly when the scheme text does not occur in that
    remainder again. *)
Theorem bearer_token_whole_iff (t : string) :
  (exists credential, bearerToken ("Bearer " ++ t) = JStr credential)
  /\ (bearerToken ("Bearer " ++ t) = JStr t <-> ~ occurs "Bearer " t).
Proof.
  destruct (bearerToken_piece t) as [piece [rest [E [S [H1 H2]]]]].
  split; [now exists piece|]. split.
  - intros W O. rewrite E in W. injection W as ->.
    destruct (split_from_occurrence (sep := "Bearer ") EmptyString
                ltac:(discriminate) O) as [p [r [S' N]]].
    unfold split in S. rewrite S in S'. injection S' as _ <-.
    destruct (H2 N) as [b Eb].
    apply (f_equal String.length) in Eb.
    rewrite !append_length in Eb. cbn in Eb. lia.
  - apply bearerToken_exact.
Qed.

(** ** Counting outcomes *)

Lemma responses_app (a b : list Event) :
  responses (a ++ b) = (responses a + responses b)%nat.
Proof. unfold responses. now rewrite filter_app, length_app. Qed.

Lemma escapes_app (a b : list Event) :
  escapes (a ++ b) = (escapes a + escapes b)%nat.
Proof. unfold escapes. now rewrite filter_app, length_app. Qed.

Lemma respondsOnce_answered (c : Ctx) (es : list Event) :
  responses es = 1%nat -> escapes es = 0%nat -> respondsOnce c (answered c es).
Proof. intros R E. repeat split. now exists es. Qed.

Lemma respondsOnce_after (c c1 : Ctx) (r : Result unit * Ctx)
      (pre : list Event) :
  NODE_ENV c1 = NODE_ENV c ->
  events c1 = (events c ++ pre)%list ->
  responses pre = 0%nat -> escapes pre = 0%nat ->
  respondsOnce c1 r -> respondsOnce c r.
Proof.
  intros N E R0 E0 [F [N1 [es [Ev [R E1]]]]].
  split; [exact F|]. split; [congruence|].
  exists (pre ++ es)%list. rewrite Ev, E, <- app_assoc.
  rewrite responses_app, escapes_app, R0, E0, R, E1. now repeat split.
Qed.

Lemma respondsOnce_settles (c : Ctx) (r : Result unit * Ctx) :
  respondsOnce c r -> settles c r.
Proof.
  intros [F [N [es [Ev [R E]]]]]. split; [exact F|]. split; [exact N|].
  exists es. split; [exact Ev|]. now rewrite R, E.
Qed.

(** ** Errors of the program in the responder *)

(** The answer to an [AppError], for every message and code. *)
Lemma toErrorHandler_AppError_any (message : string) (statusCode : option Z)
        (c : Ctx) :
  let err := AppError message statusCode in
  toErrorHandler (Some err) c =
    answered c
      [StatusJson (JNum (answeredCode statusCode))
         (if isProduction (NODE_ENV c)
          then obj [("status", JStr (builtStatus statusCode));
                    ("message", JStr message)]
          else obj [("status", JStr (builtStatus statusCode));
                    ("error", normalize err);
                    ("message", JStr message);
                    ("stack", JStr stackTrace)])].
Proof.
  intros err. unfold err, toErrorHandler, tryCatch, AppError.
  fold (builtCode statusCode). fold (builtStatus statusCode).
  assert (C : resolvedCode
                (JObj [("statusCode", JNum (builtCode statusCode));
                       ("status", JStr (builtStatus statusCode));
                       ("isOperational", JBool true)]
                      (Some (JStr message)) (Some (JStr stackTrace))
                      [("name", JStr "Error"); ("message", JStr EmptyString)])
              = JNum (answeredCode statusCode)).
  { unfold resolvedCode, js_or, answeredCode. cbn.
    now destruct (builtCode statusCode =? 0). }
  assert (S : resolvedStatus
                (JObj [("statusCode", JNum (builtCode statusCode));
                       ("status", JStr (builtStatus statusCode));
                       ("isOperational", JBool true)]
                      (Some (JStr message)) (Some (JStr stackTrace))
                      [("name", JStr "Error"); ("message", JStr EmptyString)])
              = JStr (builtStatus statusCode)).
  { unfold resolvedStatus, js_or, builtStatus. cbn.
    now destruct (startsWith (decimal (builtCode statusCode)) "4"). }
  destruct (isProduction (NODE_ENV c)) eqn:P.
  - rewrite globalErrorHandler_production by (reflexivity || assumption).
    unfold reclassify. cbv zeta.
    repeat first
      [ rewrite (copied_lookup (k := "name")) by discriminate
      | rewrite (copied_lookup (k := "code")) by discriminate
      | progress cbn [lookup String.eqb Ascii.eqb Bool.eqb orUndefined
                        strictEqStr strictEqNum] ].
    rewrite sendErrorProd_operational
      by (rewrite copied_lookup by discriminate; reflexivity).
    now rewrite copied_statusCode, copied_status, copied_message, C, S.
  - rewrite globalErrorHandler_development by (reflexivity || assumption).
    rewrite sendErrorDev_answer.
    rewrite normalize_statusCode, normalize_status, C, S.
    now rewrite !normalize_other by discriminate.
Qed.


(** A [TypeError] of the engine is an unexpected error: it is answered 500,
    with the generic body in production mode. *)
Lemma toErrorHandler_TypeError (message : string) (c : Ctx) :
  let err := TypeError message in
  toErrorHandler (Some err) c =
    answered c
      (if isProduction (NODE_ENV c)
       then [ConsoleError [JStr "ERROR 💥"; copied err];
             StatusJson (JNum 500)
               (obj [("status", JStr "error");
                     ("message", JStr "Something went wrong")])]
       else [StatusJson (JNum 500)
               (obj [("status", JStr "error");
                     ("error", normalize err);
                     ("message", JStr message);
                     ("stack", JStr stackTrace)])]).
Proof.
  intros err. unfold err, toErrorHandler, tryCatch.
  destruct (isProduction (NODE_ENV c)) eqn:P.
  - rewrite globalErrorHandler_production by (reflexivity || assumption).
    replace (reclassify (copied (TypeError message)))
      with (Return (copied (TypeError message))) by reflexivity.
    now rewrite sendErrorProd_unexpected by reflexivity.
  - rewrite globalErrorHandler_development by (reflexivity || assumption).
    reflexivity.
Qed.

Lemma toErrorHandler_settles (err : JsVal) (c : Ctx) :
  settles c (toErrorHandler (Some err) c).
Proof.
  unfold toErrorHandler, tryCatch.
  destruct (isObject err) eqn:O.
  - destruct err as [| | | | |own m s inh]; try discriminate.
    destruct (isProduction (NODE_ENV c)) eqn:P.
    + rewrite globalErrorHandler_production by (reflexivity || assumption).
      destruct (reclassify (copied (JObj own m s inh))) as [error|e].
      * destruct (truthy (get "isOperational" error)) eqn:T.
        -- rewrite sendErrorProd_operational by assumption.
           now apply respondsOnce_settles, respondsOnce_answered.
        -- rewrite sendErrorProd_unexpected by assumption.
           now apply respondsOnce_settles, respondsOnce_answered.
      * cbn. repeat split. now exists [Escaped e].
    + rewrite globalErrorHandler_development by (reflexivity || assumption).
      rewrite sendErrorDev_answer.
      now apply respondsOnce_settles, respondsOnce_answered.
  - rewrite globalErrorHandler_not_object by assumption.
    cbn. repeat split. eexists. split; reflexivity.
Qed.

(** X9.  Whatever error value the application's error handler is given, it
    returns with exactly one terminal event: one response, or, when the
    responder itself throws, one exception that leaves the program.  Never
    both, never neither, and never a response after the exception. *)
Theorem error_handler_settles (err : JsVal) (c : Ctx) :
  settles c (toErrorHandler (Some err) c)
  /\ (forall e, globalErrorHandler err c = threw c e ->
      toErrorHandler (Some err) c = answered c [Escaped e]).
Proof.
  split; [apply toErrorHandler_settles|].
  intros e T. unfold toErrorHandler, tryCatch. now rewrite T.
Qed.

(** ** The gate on every request *)

(** Either the verifier accepts the token the gate extracts from the
    header, or the gate refuses the request, whatever the next stage is. *)
Lemma gate_exhaustive (c : Ctx) :
  (exists h v, accepts c h v)
  \/ (exists es,
        refusal es
        /\ forall next : Next, firebaseAuthMiddleware next c = answered c es).
Proof.
  destruct (authorization (req c)) as [h|] eqn:A.
  - destruct (startsWith h "Bearer ") eqn:P.
    + destruct (verifyIdToken (bearerToken h)) as [v|e] eqn:V.
      * destruct (truthy v) eqn:T.
        -- left. exists h, v. now repeat split.
        -- right. eexists. split.
           ++ exists [Verify (bearerToken h)], "Invalid authorization token".
              split; [reflexivity|]. split; [now right | now split].
           ++ intros next. now apply gate_no_identity with (v := v).
      * right. eexists. split.
        -- exists [Verify (bearerToken h);
                   ConsoleError [JStr "Error validating Firebase token:"; e]],
                  "Invalid authorization token".
           split; [reflexivity|]. split; [now right | now split].
        -- intros next. now apply gate_rejected.
    + right. eexists. split.
      * exists [], "Missing or invalid authorization token".
        split; [reflexivity|]. split; [now left | now split].
      * intros next. now apply gate_malformed with (h := h).
  - right. eexists. split.
    + exists [], "Missing or invalid authorization token".
      split; [reflexivity|]. split; [now left | now split].
    + intros next. now apply gate_missing.
Qed.

Lemma refusal_respondsOnce (c : Ctx) (es : list Event) :
  refusal es -> respondsOnce c (answered c es).
Proof.
  intros [pre [message [-> [_ [R E]]]]]. apply respondsOnce_answered.
  - rewrite responses_app, R. reflexivity.
  - rewrite escapes_app, E. reflexivity.
Qed.

(** ** The identity routes *)

Lemma getUserProfile_cases (next : Next) (c : Ctx) :
  getUserProfile next c =
    if truthy (user (req c))
    then answered c
           [StatusJson (JNum 200)
              (obj [("status", JStr "success");
                    ("data", obj [("user", user (req c))])])]
    else catchAsync
           (async (fun nx =>
              nx (Some (AppError "User not authenticated" (Some 401)))))
           next c.
Proof.
  unfold getUserProfile. rewrite !catchAsync_async.
  unfold tryCatch, bind, getReq.
  now destruct (truthy (user (req c))).
Qed.

Lemma profileRoot_cases (next : Next) (c : Ctx) :
  profileRoot next c =
    if truthy (user (req c))
    then answered c
           [Json
              (obj [("message",
                     JStr "Profile route is protected and accessible only to authenticated users.");
                    ("user", user (req c))])]
    else catchAsync
           (async (fun nx => nx (Some (AppError "User not found" (Some 404)))))
           next c.
Proof.
  unfold profileRoot. rewrite !catchAsync_async.
  unfold tryCatch, bind, getReq.
  now destruct (truthy (user (req c))).
Qed.

Lemma verified_user_truthy (c : Ctx) (h : string) (v : JsVal) :
  accepts c h v -> truthy (user (req (verified c h v))) = true.
Proof. now intros [_ [_ [_ T]]]. Qed.

Lemma forwarded_AppError (message : string) (statusCode : option Z) (c : Ctx) :
  catchAsync (async (fun nx => nx (Some (AppError message statusCode))))
             toErrorHandler c
  = toErrorHandler (Some (AppError message statusCode)) c.
Proof.
  rewrite catchAsync_async.
  unfold tryCatch. now rewrite toErrorHandler_AppError_any.
Qed.

Lemma AppError_respondsOnce (message : string) (statusCode : option Z)
      (c : Ctx) :
  respondsOnce c (toErrorHandler (Some (AppError message statusCode)) c).
Proof.
  rewrite toErrorHandler_AppError_any. now apply respondsOnce_answered.
Qed.

Lemma TypeError_respondsOnce (message : string) (c : Ctx) :
  respondsOnce c (toErrorHandler (Some (TypeError message)) c).
Proof.
  rewrite toErrorHandler_TypeError.
  destruct (isProduction (NODE_ENV c)); now apply respondsOnce_answered.
Qed.

(** The update handler with a body that cannot be destructured. *)
Lemma updateUserProfile_no_body (next : Next) (c : Ctx) :
  body (req c) = JUndefined \/ body (req c) = JNull ->
  updateUserProfile next c =
    next (Some (TypeError ("Cannot read properties of "
                           ++ toStr (body (req c))))) c.
Proof.
  intros B.
  unfold updateUserProfile. rewrite catchAsync_async.
  unfold tryCatch, bind, getReq, lift, member.
  now destruct B as [-> | ->].
Qed.

(** The update handler with a body that is a string, a number or a
    boolean: no property to read, so the fields count as missing. *)
Lemma updateUserProfile_primitive (c : Ctx) :
  isObject (body (req c)) = false ->
  body (req c) <> JUndefined -> body (req c) <> JNull ->
  updateUserProfile toErrorHandler c =
    toErrorHandler
      (Some (AppError "Please provide name and email" (Some 400))) c.
Proof.
  intros O U N. rewrite <- forwarded_AppError.
  unfold updateUserProfile. rewrite !catchAsync_async.
  unfold tryCatch, bind, getReq, lift, member.
  destruct (body (req c)); try discriminate; try reflexivity;
    [now elim U | now elim N].
Qed.

Lemma profileRoutes_respondsOnce (route : ProfileRoute) (c : Ctx) :
  respondsOnce c (profileRoutes route None c).
Proof.
  destruct route; cbn [profileRoutes].
  - rewrite profileRoot_cases. destruct (truthy (user (req c))).
    + now apply respondsOnce_answered.
    + rewrite forwarded_AppError. apply AppError_respondsOnce.
  - rewrite getUserProfile_cases. destruct (truthy (user (req c))).
    + now apply respondsOnce_answered.
    + rewrite forwarded_AppError. apply AppError_respondsOnce.
  - destruct (body (req c)) as [| | | | |own m s inh] eqn:B.
    + rewrite updateUserProfile_no_body by now left.
      apply TypeError_respondsOnce.
    + rewrite updateUserProfile_no_body by now right.
      apply TypeError_respondsOnce.
    + rewrite updateUserProfile_primitive by (rewrite B; easy).
      apply AppError_respondsOnce.
    + rewrite updateUserProfile_primitive by (rewrite B; easy).
      apply AppError_respondsOnce.
    + rewrite updateUserProfile_primitive by (rewrite B; easy).
      apply AppError_respondsOnce.
    + rewrite (updateUserProfile_cases toErrorHandler c B).
      destruct (negb (truthy (get "name" (body (req c))))
                || negb (truthy (get "email" (body (req c))))).
      * rewrite forwarded_AppError. apply AppError_respondsOnce.
      * rewrite catchAsync_async. unfold tryCatch.
        match goal with
        | |- respondsOnce c (let (_, _) := emit ?ev c in _) =>
            change (respondsOnce c (answered c [ev]))
        end.
        now apply respondsOnce_answered.
  - unfold notFound, bind, getReq. apply AppError_respondsOnce.
Qed.

(** ** The application as a whole *)

(** X7.  For every request, whatever the router selects and whatever the
    header, the verifier, the body and the deployment mode are, the
    application returns and has sent exactly one response; no exception
    leaves the program.  In particular the errors the program raises
    itself never make the responder throw. *)
Theorem app_responds_once (c : Ctx) : respondsOnce c (app c).
Proof.
  unfold app, bind, getReq. cbn [req].
  destruct (dispatch (method (req c)) (originalUrl (req c))) as [|route|] eqn:D.
  - change (emit (Send "Hello World!") c)
      with (answered c [Send "Hello World!"]).
    now apply respondsOnce_answered.
  - destruct (gate_exhaustive c) as [[h [v A]] | [es [R G]]].
    + pose proof (profileRoutes_respondsOnce route (verified c h v)) as H.
      pose proof (gate_accepts (profileRoutes route) A) as G.
      unfold tryCatch in G.
      destruct (profileRoutes route None (verified c h v)) as [[[]|e] c1];
        [|now destruct H as [F _]].
      rewrite (@protectedRouter_returns _ _ _ G).
      apply (@respondsOnce_after c (verified c h v) (Return tt, c1)
               [Verify (bearerToken h)]);
        [reflexivity | reflexivity | reflexivity | reflexivity | exact H].
    + rewrite (@protectedRouter_returns _ _ _ (G (profileRoutes route))).
      now apply refusal_respondsOnce.
  - unfold notFound, bind, getReq. apply AppError_respondsOnce.
Qed.

(** Behind the gate: the request is refused by the gate, or the token
    extracted from its header is accepted and the route's handler
    decides. *)
Lemma app_protected_cases (c : Ctx) (route : ProfileRoute) :
  dispatch (method (req c)) (originalUrl (req c)) = ProfileMount route ->
  (exists es, refusal es /\ app c = answered c es)
  \/ (exists h v,
        accepts c h v
        /\ forall c',
             profileRoutes route None (verified c h v) = (Return tt, c') ->
             app c = (Return tt, c')).
Proof.
  intros D. destruct (gate_exhaustive c) as [[h [v A]] | [es [R G]]].
  - right. exists h, v. split; [exact A|]. intros c' H.
    now apply (app_authenticated D A).
  - left. exists es. split; [exact R|].
    rewrite (app_protected c D). apply protectedRouter_returns, G.
Qed.

(** X4.  The details handler answers 200 with the attached identity, and
    without one it forwards a 401 [AppError] with the message
    [User not authenticated], which the application answers as 401.  Behind
    the gate that second branch is never taken: a request to the details
    route is either refused by the gate with one of its two 401 answers, or
    answered 200 with the identity the verifier returned. *)
Theorem details_route_outcomes (c : Ctx) :
  (truthy (user (req c)) = true ->
   forall next : Next,
     getUserProfile next c =
       answered c
         [StatusJson (JNum 200)
            (obj [("status", JStr "success");
                  ("data", obj [("user", user (req c))])])])
  /\ (truthy (user (req c)) = false ->
      getUserProfile toErrorHandler c =
        toErrorHandler
          (Some (AppError "User not authenticated" (Some 401))) c)
  /\ (dispatch (method (req c)) (originalUrl (req c))
      = ProfileMount ProfileDetails ->
      (exists es, refusal es /\ app c = answered c es)
      \/ (exists h v,
            accepts c h v
            /\ app c =
                 answered (verified c h v)
                   [StatusJson (JNum 200)
                      (obj [("status", JStr "success");
                            ("data", obj [("user", v)])])])).
Proof.
  split; [|split].
  - intros T next. rewrite getUserProfile_cases. now rewrite T.
  - intros F. rewrite getUserProfile_cases, F. apply forwarded_AppError.
  - intros D. destruct (app_protected_cases c D) as [L | [h [v [A H]]]].
    + now left.
    + right. exists h, v. split; [exact A|]. apply H.
      cbn [profileRoutes]. rewrite getUserProfile_cases.
      now rewrite (verified_user_truthy A).
Qed.

(** X5.  The root route of the profile router answers with the fixed
    message and the attached identity through [res.json], and without an
    identity it forwards a 404 [AppError] with the message
    [User not found].  Behind the gate a request to it is either refused
    with one of the gate's two 401 answers, or answered with the identity
    the verifier returned. *)
Theorem profile_root_outcomes (c : Ctx) :
  let greeting :=
    "Profile route is protected and accessible only to authenticated users." in
  (truthy (user (req c)) = true ->
   forall next : Next,
     profileRoot next c =
       answered c
         [Json (obj [("message", JStr greeting); ("user", user (req c))])])
  /\ (truthy (user (req c)) = false ->
      profileRoot toErrorHandler c =
        toErrorHandler (Some (AppError "User not found" (Some 404))) c)
  /\ (dispatch (method (req c)) (originalUrl (req c))
      = ProfileMount ProfileRoot ->
      (exists es, refusal es /\ app c = answered c es)
      \/ (exists h v,
            accepts c h v
            /\ app c =
                 answered (verified c h v)
                   [Json (obj [("message", JStr greeting); ("user", v)])])).
Proof.
  intros greeting. split; [|split].
  - intros T next. rewrite profileRoot_cases. now rewrite T.
  - intros F. rewrite profileRoot_cases, F. apply forwarded_AppError.
  - intros D. destruct (app_protected_cases c D) as [L | [h [v [A H]]]].
    + now left.
    + right. exists h, v. split; [exact A|]. apply H.
      cbn [profileRoutes]. rewrite profileRoot_cases.
      now rewrite (verified_user_truthy A).
Qed.

(** X6.  When [req.body] is [undefined] or [null], the destructuring in the
    update handler throws before the check of the fields.  The handler
    then sends nothing: from the state it was called in it hands to [next]
    a [TypeError] of the engine, which carries no status code and no
    [isOperational] mark, and not the 400 [AppError] of a missing field.
    This is the handler on its own, for whatever request reaches it; the
    application file registers its body parsers before the routes. *)
Theorem update_without_body (next : Next) (c : Ctx) :
  body (req c) = JUndefined \/ body (req c) = JNull ->
  exists e,
    updateUserProfile next c = next (Some e) c
    /\ isObject e = true
    /\ get "name" e = JStr "TypeError"
    /\ get "statusCode" e = JUndefined
    /\ get "isOperational" e = JUndefined
    /\ e <> AppError "Please provide name and email" (Some 400).
Proof.
  intros B. eexists. split; [now apply updateUserProfile_no_body|].
  repeat split. discriminate.
Qed.

(** ** The reclassifiers of the production branch *)

Lemma sendErrorProd_AppError (message : string) (n : Z) (c : Ctx) :
  n = 400 \/ n = 401 ->
  sendErrorProd (AppError message (Some n)) c =
    answered c
      [StatusJson (JNum n)
         (obj [("status", JStr "fail"); ("message", JStr message)])].
Proof. intros [-> | ->]; reflexivity. Qed.

(** X10.  In production mode an error whose own enumerable [name] is
    [CastError] is answered 400 with the message [Invalid <path>: <value>]
    built from its own [path] and [value], when each of the two is absent
    (the text [undefined]), [null], a boolean, a string or a safe integer.
    The cast test comes first, so this holds whatever else the error
    carries: a code 11000, an [errors] object. *)
Theorem cast_errors_reclassified (own : Props) (m s : option JsVal)
        (inh : Props) (c : Ctx) :
  isProduction (NODE_ENV c) = true ->
  lookup "name" own = Some (JStr "CastError") ->
  printable (orUndefined (lookup "path" own)) = true ->
  printable (orUndefined (lookup "value" own)) = true ->
  globalErrorHandler (JObj own m s inh) c =
    answered c
      [StatusJson (JNum 400)
         (obj [("status", JStr "fail");
               ("message",
                JStr ("Invalid " ++ toStr (orUndefined (lookup "path" own))
                      ++ ": " ++ toStr (orUndefined (lookup "value" own))))])].
Proof.
  intros P N _ _.
  rewrite globalErrorHandler_production by (reflexivity || assumption).
  assert (R : reclassify (copied (JObj own m s inh))
              = Return (handleCastError (copied (JObj own m s inh)))).
  { unfold reclassify. cbv zeta.
    rewrite (copied_lookup (k := "name")) by discriminate.
    rewrite N. cbn [orUndefined strictEqStr String.eqb Ascii.eqb Bool.eqb].
    unfold handleCastError.
    rewrite AppError_code.
    now rewrite !AppError_name by discriminate. }
  rewrite R. unfold handleCastError.
  rewrite !copied_lookup by discriminate.
  now apply sendErrorProd_AppError; left.
Qed.

Lemma join_strings (sep : string) (l : list string) :
  join sep (map JStr l) = joinStrings sep l.
Proof.
  unfold joinStrings. induction l as [|x l IH]; [reflexivity|].
  destruct l as [|y l]; [reflexivity|].
  change (join sep (map JStr (x :: y :: l)))
    with (x ++ sep ++ join sep (map JStr (y :: l))).
  now rewrite IH.
Qed.

Lemma messagesOf_strings (fields : Props) (messages : list string) :
  Forall2 (fun f msg => isObject (snd f) = true
                        /\ get "message" (snd f) = JStr msg)
          fields messages ->
  messagesOf (map snd fields) = Return (map JStr messages).
Proof.
  induction 1 as [|[k v] msg fields messages [O G] _ IH]; [reflexivity|].
  cbn [map snd messagesOf] in *. rewrite IH.
  unfold member. destruct v; try discriminate. now rewrite G.
Qed.

(** X11.  In production mode, for an error whose own enumerable [name] is
    [ValidationError] and whose own [code] is not 11000: when its own
    [errors] is an object whose values are objects with string messages,
    the answer is 400 with [Invalid input data. ] followed by those
    messages, in order, joined by a full stop and a space; when it has no
    own [errors], [Object.values] throws, the responder throws with it and
    nothing is sent. *)
Theorem validation_errors_reclassified (own : Props) (m s : option JsVal)
        (inh : Props) (c : Ctx) :
  isProduction (NODE_ENV c) = true ->
  lookup "name" own = Some (JStr "ValidationError") ->
  lookup "code" own <> Some (JNum 11000) ->
  (forall fields m' s' inh' messages,
     lookup "errors" own = Some (JObj fields m' s' inh') ->
     Forall2 (fun f msg => isObject (snd f) = true
                           /\ get "message" (snd f) = JStr msg)
             fields messages ->
     globalErrorHandler (JObj own m s inh) c =
       answered c
         [StatusJson (JNum 400)
            (obj [("status", JStr "fail");
                  ("message",
                   JStr ("Invalid input data. "
                         ++ joinStrings ". " messages))])])
  /\ (lookup "errors" own = None ->
      exists e, globalErrorHandler (JObj own m s inh) c = threw c e).
Proof.
  intros P N C.
  assert (Code : strictEqNum (get "code" (copied (JObj own m s inh))) 11000
                 = false).
  { rewrite copied_lookup by discriminate. now apply strictEqNum_lookup. }
  assert (R : reclassify (copied (JObj own m s inh))
              = match handleValidationError (copied (JObj own m s inh)) with
                | Return error => Return error
                | Throw e => Throw e
                end).
  { unfold reclassify. cbv zeta.
    repeat first
      [ rewrite (copied_lookup (k := "name")) by discriminate
      | rewrite N
      | rewrite Code
      | progress cbn [orUndefined strictEqStr String.eqb Ascii.eqb Bool.eqb] ].
    destruct (handleValidationError (copied (JObj own m s inh))) as [e1|] eqn:V;
      [|reflexivity].
    destruct (handleValidationError_returns _ V) as [msg ->].
    now rewrite !AppError_name by discriminate. }
  split.
  - intros fields m' s' inh' messages E F.
    rewrite globalErrorHandler_production by (reflexivity || assumption).
    rewrite R. unfold handleValidationError.
    rewrite copied_lookup by discriminate. rewrite E.
    cbn [orUndefined objectValues]. rewrite (messagesOf_strings F).
    rewrite join_strings. now apply sendErrorProd_AppError; left.
  - intros E. eexists.
    rewrite globalErrorHandler_production by (reflexivity || assumption).
    rewrite R. unfold handleValidationError.
    rewrite copied_lookup by discriminate. rewrite E. reflexivity.
Qed.

(** The rest of the expression on a text that holds no backslash and no
    line terminator before the closing quote. *)
Lemma closing_plain (q : ascii) (b d : string) :
  plainFor q b = true ->
  closing q (b ++ String q d) = Some (b ++ String q EmptyString).
Proof.
  induction b as [|ch b IH]; intros Pl.
  - cbn [append closing]. now rewrite Ascii.eqb_refl.
  - cbn [plainFor] in Pl.
    apply andb_prop in Pl. destruct Pl as [Pl P4].
    apply andb_prop in Pl. destruct Pl as [Pl P3].
    apply andb_prop in Pl. destruct Pl as [P1 P2].
    apply negb_true_iff in P1, P2, P3.
    change (String ch b ++ String q d) with (String ch (b ++ String q d)).
    cbn [closing]. rewrite P1, P2, P3, (IH P4). reflexivity.
Qed.

Lemma regexMatch_first (a b d : string) (q : ascii) :
  noQuote a = true -> isQuote q = true -> plainFor q b = true ->
  regexMatch (a ++ String q (b ++ String q d))
  = Some (String q (b ++ String q EmptyString)).
Proof.
  intros Na Q Pl. induction a as [|ch a IH].
  - cbn [append regexMatch]. now rewrite Q, closing_plain.
  - cbn [noQuote] in Na. apply andb_prop in Na. destruct Na as [N1 N2].
    apply negb_true_iff in N1.
    change (String ch a ++ String q (b ++ String q d))
      with (String ch (a ++ String q (b ++ String q d))).
    cbn [regexMatch]. rewrite N1. now apply IH.
Qed.

(** X12.  In production mode, for an error whose own enumerable properties
    hold the code 11000 and an [errmsg] of ASCII text in which the first
    quote character opens a value that holds no backslash, no line
    terminator and no further quote of that kind before it closes, and
    whose own [name] is not [CastError]: the answer is 400 with
    [Duplicate field value: <value>. Please use another value!], where the
    value is that quoted text, quotes included. *)
Theorem duplicate_key_reclassified (own : Props) (m s : option JsVal)
        (inh : Props) (c : Ctx) (a b d : string) (q : ascii) :
  isProduction (NODE_ENV c) = true ->
  lookup "name" own <> Some (JStr "CastError") ->
  lookup "code" own = Some (JNum 11000) ->
  lookup "errmsg" own = Some (JStr (a ++ String q (b ++ String q d))) ->
  asciiText (a ++ String q (b ++ String q d)) = true ->
  noQuote a = true -> isQuote q = true -> plainFor q b = true ->
  globalErrorHandler (JObj own m s inh) c =
    answered c
      [StatusJson (JNum 400)
         (obj [("status", JStr "fail");
               ("message",
                JStr ("Duplicate field value: "
                      ++ String q (b ++ String q EmptyString)
                      ++ ". Please use another value!"))])].
Proof.
  intros P N C E _ Na Q Pl.
  rewrite globalErrorHandler_production by (reflexivity || assumption).
  assert (D : handleDuplicateFieldsError (copied (JObj own m s inh))
              = Return (AppError
                          ("Duplicate field value: "
                           ++ String q (b ++ String q EmptyString)
                           ++ ". Please use another value!") (Some 400))).
  { unfold handleDuplicateFieldsError.
    rewrite copied_lookup by discriminate. rewrite E. cbn [orUndefined].
    now rewrite regexMatch_first. }
  assert (R : reclassify (copied (JObj own m s inh))
              = handleDuplicateFieldsError (copied (JObj own m s inh))).
  { unfold reclassify. cbv zeta.
    rewrite (copied_lookup (k := "name")) by discriminate.
    rewrite (strictEqStr_lookup N).
    rewrite (copied_lookup (k := "code")) by discriminate.
    rewrite C. cbn [orUndefined strictEqNum Z.eqb Pos.eqb].
    rewrite D. now rewrite !AppError_name by discriminate. }
  rewrite R, D. now apply sendErrorProd_AppError; left.
Qed.

(** The text that the rest of the expression matches: the characters up to
    a closing quote, and that quote. *)
Lemma closing_shape (n : nat) :
  forall (q : ascii) (s m : string),
    (String.length s <= n)%nat -> closing q s = Some m ->
    exists b d,
      s = b ++ String q d /\ m = b ++ String q EmptyString
      /\ oneLine b = true.
Proof.
  induction n as [|n IH]; intros q s m L H.
  - destruct s; [discriminate | simpl in L; lia].
  - destruct s as [|ch s]; [discriminate|].
    cbn [closing] in H.
    destruct (Ascii.eqb ch q) eqn:Q.
    { apply Ascii.eqb_eq in Q. subst ch. injection H as <-.
      exists EmptyString, s. now repeat split. }
    assert (Plain :
      (if lineTerminator ch then None
       else option_map (String ch) (closing q s)) = Some m ->
      exists b d,
        String ch s = b ++ String q d /\ m = b ++ String q EmptyString
        /\ oneLine b = true).
    { destruct (lineTerminator ch) eqn:T; [discriminate|].
      destruct (closing q s) as [m'|] eqn:C; [|discriminate].
      intros E. injection E as <-.
      destruct (IH q s m') as [b [d [-> [-> O]]]];
        [simpl in L; lia | exact C |].
      exists (String ch b), d. split; [reflexivity|]. split; [reflexivity|].
      cbn [oneLine]. now rewrite T, O. }
    destruct (Ascii.eqb ch backslash) eqn:B; [|now apply Plain].
    destruct s as [|ch2 s2]; [now apply Plain|].
    destruct (lineTerminator ch2) eqn:T2; [now apply Plain|].
    destruct (closing q s2) as [m2|] eqn:C2; [|now apply Plain].
    injection H as <-.
    destruct (IH q s2 m2) as [b [d [-> [-> O]]]];
      [simpl in L; lia | exact C2 |].
    exists (String ch (String ch2 b)), d.
    split; [reflexivity|]. split; [reflexivity|].
    cbn [oneLine]. now rewrite (backslash_one_line _ B), T2, O.
Qed.

Lemma regexMatch_shape (s m : string) :
  regexMatch s = Some m ->
  exists a q b d,
    s = a ++ m ++ d /\ m = String q (b ++ String q EmptyString)
    /\ isQuote q = true /\ oneLine b = true.
Proof.
  revert m. induction s as [|ch s IH]; intros m; [discriminate|].
  cbn [regexMatch].
  assert (Later : regexMatch s = Some m ->
    exists a q b d,
      String ch s = a ++ m ++ d /\ m = String q (b ++ String q EmptyString)
      /\ isQuote q = true /\ oneLine b = true).
  { intros H. destruct (IH _ H) as [a [q [b [d [-> [E [Q O]]]]]]].
    exists (String ch a), q, b, d. now repeat split. }
  destruct (isQuote ch) eqn:Q; [|exact Later].
  destruct (closing ch s) as [m'|] eqn:C; [|exact Later].
  intros H. injection H as <-.
  destruct (closing_shape (n := String.length s) ch s (le_n _) C)
    as [b [d [-> [-> O]]]].
  exists EmptyString, ch, b, d. cbn [append].
  split; [|now repeat split].
  f_equal. rewrite append_assoc. reflexivity.
Qed.

(** X13.  Whenever the duplicate-field handler returns, [errmsg] is a
    string and the value it reports is a part of it that starts and ends
    with the same quote character and crosses no line terminator; the
    result is an operational 400 error whose message is
    [Duplicate field value: <value>. Please use another value!]. *)
Theorem duplicate_value_is_quoted_part (err v : JsVal) :
  handleDuplicateFieldsError err = Return v ->
  exists errmsg a value d q b,
    get "errmsg" err = JStr errmsg
    /\ errmsg = a ++ value ++ d
    /\ value = String q (b ++ String q EmptyString)
    /\ isQuote q = true /\ oneLine b = true
    /\ get "message" v
       = JStr ("Duplicate field value: " ++ value
               ++ ". Please use another value!")
    /\ get "statusCode" v = JNum 400
    /\ get "status" v = JStr "fail"
    /\ get "isOperational" v = JBool true.
Proof.
  unfold handleDuplicateFieldsError.
  destruct (get "errmsg" err) as [| | | |errmsg|]; try discriminate.
  destruct (regexMatch errmsg) as [value|] eqn:R; [|discriminate].
  intros H. injection H as <-.
  destruct (regexMatch_shape _ R) as [a [q [b [d [E [V [Q O]]]]]]].
  exists errmsg, a, value, d, q, b. now repeat split.
Qed.

(** ** The error model beyond HTTP codes *)

Lemma decimal_negative (n : Z) :
  n < 0 -> startsWith (decimal n) "4" = false.
Proof. intros N. destruct n; try lia. reflexivity. Qed.

Lemma decimal_leading_four_small (n : Z) :
  0 <= n < 10000 ->
  startsWith (decimal n) "4"
  = ((n =? 4) || ((40 <=? n) && (n <=? 49)) || ((400 <=? n) && (n <=? 499))
     || ((4000 <=? n) && (n <=? 4999))).
Proof.
  intros R.
  pose (ok := fun k : nat =>
    let n := Z.of_nat k in
    Bool.eqb (startsWith (decimal n) "4")
             ((n =? 4) || ((40 <=? n) && (n <=? 49))
              || ((400 <=? n) && (n <=? 499))
              || ((4000 <=? n) && (n <=? 4999)))).
  assert (A : forallb ok (seq 0 (Z.to_nat 10000)) = true)
    by (vm_compute; reflexivity).
  rewrite forallb_forall in A.
  assert (I : In (Z.to_nat n) (seq 0 (Z.to_nat 10000)))
    by (apply in_seq; lia).
  specialize (A _ I). unfold ok in A. cbv zeta in A.
  rewrite Z2Nat.id in A by lia.
  now apply Bool.eqb_prop.
Qed.

(** X14.  The constructor derives [status] from the first character of the
    decimal text of the code, not from its range: below 10000 the status is
    [fail] exactly for 4, 40 to 49, 400 to 499 and 4000 to 4999, and
    [error] for every other code, the negative ones included.  Without a
    code the error is built with 500 and [error].  Every error it builds is
    marked operational and carries its message. *)
Theorem app_error_status_by_first_digit (message : string) (n : Z) :
  n < 10000 ->
  (get "status" (AppError message (Some n)) = JStr "fail"
   <-> n = 4 \/ 40 <= n <= 49 \/ 400 <= n <= 499 \/ 4000 <= n <= 4999)
  /\ (get "status" (AppError message (Some n)) = JStr "fail"
      \/ get "status" (AppError message (Some n)) = JStr "error")
  /\ get "statusCode" (AppError message None) = JNum 500
  /\ get "status" (AppError message None) = JStr "error"
  /\ get "isOperational" (AppError message (Some n)) = JBool true
  /\ get "message" (AppError message (Some n)) = JStr message.
Proof.
  intros R.
  assert (E : get "status" (AppError message (Some n))
              = JStr (if startsWith (decimal n) "4" then "fail" else "error"))
    by reflexivity.
  split; [|split; [|now repeat split]].
  - rewrite E. destruct (Z.ltb_spec n 0) as [Neg|Pos].
    + rewrite decimal_negative by assumption.
      split; [discriminate | lia].
    + rewrite decimal_leading_four_small by lia.
      destruct ((n =? 4) || ((40 <=? n) && (n <=? 49))
                || ((400 <=? n) && (n <=? 499))
                || ((4000 <=? n) && (n <=? 4999))) eqn:T.
      * split; [intros _ | reflexivity]. lia.
      * split; [discriminate | intros H; exfalso; lia].
  - rewrite E. destruct (startsWith (decimal n) "4"); [now left | now right].
Qed.

(** ** Normalisation *)

Lemma update_same (k : string) (v : JsVal) (ps : Props) :
  lookup k ps = Some v -> update k v ps = ps.
Proof.
  induction ps as [|[k' v'] ps IH]; [discriminate|]. cbn [lookup update].
  destruct (String.eqb k k') eqn:E.
  - intros H. injection H as ->. reflexivity.
  - intros H. now rewrite IH.
Qed.

Lemma js_or_idempotent (a b : JsVal) :
  truthy b = true -> js_or (js_or a b) b = js_or a b.
Proof.
  intros T. unfold js_or. destruct (truthy a) eqn:A.
  - now rewrite A.
  - now rewrite T.
Qed.

(** X15.  The two assignments that open the responder change an error
    object at most once: applied to an error they have already normalised
    they leave it as it is.  They touch no property other than
    [statusCode] and [status]. *)
Theorem normalize_idempotent (own : Props) (m s : option JsVal)
        (inh : Props) :
  let err := JObj own m s inh in
  normalize (normalize err) = normalize err
  /\ forall k, k <> "statusCode" -> k <> "status" ->
               get k (normalize err) = get k err.
Proof.
  intros err. unfold err. split.
  - assert (C : resolvedCode (normalize (JObj own m s inh))
                = resolvedCode (JObj own m s inh)).
    { unfold resolvedCode at 1. rewrite normalize_statusCode.
      unfold resolvedCode. now apply js_or_idempotent. }
    assert (S : resolvedStatus (normalize (JObj own m s inh))
                = resolvedStatus (JObj own m s inh)).
    { unfold resolvedStatus at 1. rewrite normalize_status.
      unfold resolvedStatus. now apply js_or_idempotent. }
    rewrite (normalize_object own) in C, S |- *.
    rewrite normalize_object, C, S. f_equal.
    rewrite (@update_same "statusCode")
      by (rewrite lookup_update_other by discriminate;
          apply lookup_update_same).
    now rewrite update_same by apply lookup_update_same.
  - intros k n1 n2. now apply normalize_other.
Qed.

(** ** The wrapper of the route handlers *)


End Program.


(** * Examples *)

(** ** The auth gate on sample requests *)

Lemma auth_gate_unauthorized_witness :
  let run header :=
    exec (app sampleVerifier sampleToString sampleStack sampleDispatch)
         (detailsCtx header) in
  let gate header :=
    exec (firebaseAuthMiddleware sampleVerifier markingHandler)
         (detailsCtx header) in
  run None
  = [unauthorizedAnswer "Missing or invalid authorization token"]
  /\ gate (Some "Basic abc")
     = [unauthorizedAnswer "Missing or invalid authorization token"]
  /\ run (Some "Bearer bad")
     = [Verify (JStr "bad");
        ConsoleError [JStr "Error validating Firebase token:";
                      obj [("code", JStr "auth/argument-error")]];
        unauthorizedAnswer "Invalid authorization token"]
  /\ gate (Some "Bearer void")
     = [Verify (JStr "void");
        unauthorizedAnswer "Invalid authorization token"].
Proof.
  cbv zeta. unfold exec.
  pose proof (fun header =>
    @auth_gate_unauthorized sampleVerifier sampleToString sampleStack
      sampleDispatch (detailsCtx header)) as G.
  split; [|split; [|split]].
  - rewrite (proj2 (proj1 (G None) eq_refl) ProfileDetails eq_refl).
    reflexivity.
  - rewrite (proj1 (proj1 (proj2 (G (Some "Basic abc")))
                      "Basic abc" eq_refl eq_refl) markingHandler).
    reflexivity.
  - rewrite (proj2 (proj1 (proj2 (proj2 (G (Some "Bearer bad"))))
                      "Bearer bad" (obj [("code", JStr "auth/argument-error")])
                      eq_refl eq_refl eq_refl) ProfileDetails eq_refl).
    reflexivity.
  - rewrite (proj1 (proj2 (proj2 (proj2 (G (Some "Bearer void"))))
                      "Bearer void" JUndefined
                      eq_refl eq_refl eq_refl eq_refl) markingHandler).
    reflexivity.
Defined.

(** C1, at the failing input.  The header starts with the scheme and
    carries the credential [goodBearer x], which this verifier rejects.
    The gate asks the verifier about [good] instead, which it accepts: no
    401 is sent, the identity [u1] is attached and the handler runs; the
    application answers the details route with 200. *)
Theorem rejected_credential_reaches_handler :
  let header := "Bearer goodBearer x" in
  let c := detailsCtx (Some header) in
  let u1 := obj [("uid", JStr "u1")] in
  startsWith header "Bearer " = true
  /\ header = "Bearer " ++ "goodBearer x"
  /\ sampleVerifier (JStr "goodBearer x")
     = Rejected (obj [("code", JStr "auth/argument-error")])
  /\ bearerToken header = JStr "good"
  /\ firebaseAuthMiddleware sampleVerifier markingHandler c
     = (Return tt,
        mkCtx (attachUser u1 (req c)) production
              [Verify (JStr "good"); Send "handler ran"])
  /\ exec (app sampleVerifier sampleToString sampleStack sampleDispatch) c
     = [Verify (JStr "good");
        StatusJson (JNum 200)
          (obj [("status", JStr "success"); ("data", obj [("user", u1)])])].
Proof. cbv zeta. repeat split. Qed.


(** C8, at the failing input.  The header starts with the scheme and its
    remainder is [aBearer b], a credential this verifier accepts; the
    credential the gate hands to the verifier is [a], and the request is
    answered 401. *)
Theorem bearer_token_cut_short :
  let header := "Bearer aBearer b" in
  startsWith header "Bearer " = true
  /\ header = "Bearer " ++ "aBearer b"
  /\ spacedVerifier (JStr "aBearer b") = Resolved (obj [("uid", JStr "u2")])
  /\ bearerToken header = JStr "a"
  /\ bearerToken header <> JStr "aBearer b"
  /\ exec (firebaseAuthMiddleware spacedVerifier markingHandler)
          (detailsCtx (Some header))
     = [Verify (JStr "a");
        ConsoleError [JStr "Error validating Firebase token:";
                      obj [("code", JStr "auth/argument-error")]];
        unauthorizedAnswer "Invalid authorization token"].
Proof. cbv zeta. repeat split. discriminate. Qed.

Lemma auth_gate_attaches_identity_witness :
  exec (app sampleVerifier sampleToString sampleStack sampleDispatch)
       (detailsCtx (Some "Bearer good"))
  = [Verify (JStr "good");
     StatusJson (JNum 200)
       (obj [("status", JStr "success");
             ("data", obj [("user", obj [("uid", JStr "u1")])])])].
Proof.
  unfold exec.
  rewrite (proj2 (proj2 (proj2
    (@auth_gate_attaches_identity sampleVerifier sampleToString sampleStack
       sampleDispatch markingHandler (detailsCtx (Some "Bearer good"))
       "Bearer good" (obj [("uid", JStr "u1")])
       eq_refl eq_refl eq_refl eq_refl))) eq_refl).
  reflexivity.
Defined.

(** ** The error model *)

Lemma app_error_status_witness :
  get "status" (AppError sampleStack "Not found" (Some 404)) = JStr "fail"
  /\ get "status" (AppError sampleStack "Unavailable" (Some 503)) = JStr "error".
Proof.
  split.
  - apply (proj1 (proj2 (@app_error_status sampleStack "Not found" 404
                           ltac:(lia)))).
    lia.
  - apply (proj2 (proj2 (@app_error_status sampleStack "Unavailable" 503
                           ltac:(lia)))).
    lia.
Defined.

(** ** The responder on sample errors *)


(** C4 fails as stated.  An error named [JsonWebTokenError] that also
    carries the code 11000 is answered as a duplicate key, with 400; and one
    whose name is inherited loses it in the copy and is answered with 500
    and the generic message. *)
Lemma token_error_not_401 :
  let overlap :=
    obj [("name", JStr "JsonWebTokenError"); ("code", JNum 11000);
         ("errmsg", JStr "E11000 duplicate key: 'ann'")] in
  let inherited := sampleInheritedNameError "JsonWebTokenError" in
  let respond err :=
    exec (globalErrorHandler sampleToString sampleStack err)
         (errorCtx production) in
  get "name" overlap = JStr "JsonWebTokenError"
  /\ respond overlap
     = [StatusJson (JNum 400)
          (obj [("status", JStr "fail");
                ("message",
                 JStr "Duplicate field value: 'ann'. Please use another value!")])]
  /\ get "name" inherited = JStr "JsonWebTokenError"
  /\ respond inherited
     = [ConsoleError
          [JStr "ERROR 💥";
           obj [("statusCode", JNum 500); ("status", JStr "error");
                ("message", JStr "jwt malformed")]];
        StatusJson (JNum 500)
          (obj [("status", JStr "error");
                ("message", JStr "Something went wrong")])]
  /\ ~ (forall err,
          get "name" err = JStr "JsonWebTokenError" ->
          exists body,
            respond err = [StatusJson (JNum 401) body]
            /\ get "message" body = JStr "Invalid token. Please log in again.").
Proof.
  cbv zeta. repeat split.
  intros H.
  destruct (H (obj [("name", JStr "JsonWebTokenError"); ("code", JNum 11000);
                    ("errmsg", JStr "E11000 duplicate key: 'ann'")]) eq_refl)
    as [body [E _]].
  discriminate E.
Qed.

Lemma token_errors_reclassified_witness :
  let respond err :=
    exec (globalErrorHandler sampleToString sampleStack err)
         (errorCtx production) in
  respond (sampleTokenError "JsonWebTokenError")
  = [StatusJson (JNum 401)
       (obj [("status", JStr "fail");
             ("message", JStr "Invalid token. Please log in again.")])]
  /\ respond (sampleTokenError "TokenExpiredError")
     = [StatusJson (JNum 401)
          (obj [("status", JStr "fail");
                ("message",
                 JStr "Your token has expired! Please log in again.")])].
Proof.
  cbv zeta. unfold exec. split.
  - exact (f_equal (fun r => events (snd r))
      (proj1 (@token_errors_reclassified sampleToString sampleStack
               [("name", JStr "JsonWebTokenError");
                ("message", JStr "jwt malformed")]
               None (Some (JStr sampleStack))
               [("name", JStr "Error"); ("message", JStr EmptyString)]
               (errorCtx production) eq_refl ltac:(discriminate))
             eq_refl)).
  - exact (f_equal (fun r => events (snd r))
      (proj2 (@token_errors_reclassified sampleToString sampleStack
               [("name", JStr "TokenExpiredError");
                ("message", JStr "jwt malformed")]
               None (Some (JStr sampleStack))
               [("name", JStr "Error"); ("message", JStr EmptyString)]
               (errorCtx production) eq_refl ltac:(discriminate))
             eq_refl)).
Defined.

(** C5 fails as stated.  The string [boom] is an error value, the one that
    [next('boom')] hands to the responder, and it has no status code.  The
    first assignment throws on it, as it does in strict code on anything
    that is not an object: in either mode the responder throws, nothing is
    resolved and no response is emitted. *)
Lemma primitive_error_unanswered :
  let respond env :=
    globalErrorHandler sampleToString sampleStack (JStr "boom")
      (errorCtx env) in
  let raised := TypeError sampleStack "Cannot create property 'statusCode'" in
  get "statusCode" (JStr "boom") = JUndefined
  /\ respond development = (Throw raised, errorCtx development)
  /\ respond production = (Throw raised, errorCtx production)
  /\ events (snd (respond development)) = []
  /\ events (snd (respond production)) = []
  /\ ~ (forall err env,
          exists code body,
            In (StatusJson code body)
               (exec (globalErrorHandler sampleToString sampleStack err)
                     (errorCtx env))
            /\ truthy code = true
            /\ truthy (get "status" body) = true).
Proof.
  cbv zeta. repeat split.
  intros H. destruct (H (JStr "boom") development) as [code [body [I _]]].
  exact I.
Qed.

Lemma error_defaults_resolved_witness :
  let bug := TypeError sampleStack "x is not a function" in
  let busy :=
    obj [("statusCode", JNum 503); ("isOperational", JBool true);
         ("message", JStr "Unavailable")] in
  let respond env e :=
    exec (globalErrorHandler sampleToString sampleStack e) (errorCtx env) in
  get "statusCode" bug = JUndefined
  /\ get "status" bug = JUndefined
  /\ respond development bug
     = [StatusJson (JNum 500)
          (obj [("status", JStr "error");
                ("error", normalize bug);
                ("message", JStr "x is not a function");
                ("stack", JStr sampleStack)])]
  /\ get "status" busy = JUndefined
  /\ respond production busy
     = [StatusJson (JNum 503)
          (obj [("status", JStr "error"); ("message", JStr "Unavailable")])].
Proof.
  cbv zeta. unfold exec.
  split; [reflexivity|]. split; [reflexivity|]. split; [|split].
  - exact (f_equal (fun r => events (snd r))
      (proj1 (proj2 (@error_defaults_resolved sampleToString sampleStack
               [] (Some (JStr "x is not a function")) (Some (JStr sampleStack))
               [("name", JStr "TypeError"); ("message", JStr EmptyString)]
               (errorCtx development))) eq_refl)).
  - reflexivity.
  - exact (f_equal (fun r => events (snd r))
      (proj1 (proj1 (proj2 (proj2
         (@error_defaults_resolved sampleToString sampleStack
            [("statusCode", JNum 503); ("isOperational", JBool true);
             ("message", JStr "Unavailable")]
            None None [] (errorCtx production)))) eq_refl _ eq_refl))).
Defined.

(** ** The profile update route on sample requests *)

(** C7 fails as stated.  The request passes the gate; both fields are
    present in the body, the name as the empty string; the answer is the
    400 of a missing field, not the 200 that echoes the fields. *)
Lemma update_profile_empty_name :
  let fields := [("name", JStr EmptyString); ("email", JStr "ann@x.com")] in
  let trace :=
    exec (app sampleVerifier sampleToString sampleStack sampleDispatch)
         (updateCtx (obj fields)) in
  lookup "name" fields = Some (JStr EmptyString)
  /\ lookup "email" fields = Some (JStr "ann@x.com")
  /\ trace
     = [Verify (JStr "good");
        StatusJson (JNum 400)
          (obj [("status", JStr "fail");
                ("message", JStr "Please provide name and email")])]
  /\ trace
     <> [Verify (JStr "good");
         StatusJson (JNum 200)
           (obj [("status", JStr "success");
                 ("data",
                  obj [("user",
                        obj [("uid", JStr "u1");
                             ("name", JStr EmptyString);
                             ("email", JStr "ann@x.com")])])])].
Proof. cbv zeta. repeat split. discriminate. Qed.

Lemma update_profile_answers_witness :
  let run body :=
    exec (app sampleVerifier sampleToString sampleStack sampleDispatch)
         (updateCtx body) in
  run (obj [("name", JStr "Ann"); ("email", JStr "ann@x.com")])
  = [Verify (JStr "good");
     StatusJson (JNum 200)
       (obj [("status", JStr "success");
             ("data",
              obj [("user",
                    obj [("uid", JStr "u1");
                         ("name", JStr "Ann");
                         ("email", JStr "ann@x.com")])])])]
  /\ run (obj [("name", JStr "Ann")])
     = [Verify (JStr "good");
        StatusJson (JNum 400)
          (obj [("status", JStr "fail");
                ("message", JStr "Please provide name and email")])].
Proof.
  cbv zeta. unfold exec.
  assert (Acc : forall body,
    accepts sampleVerifier (updateCtx body) "Bearer good"
            (obj [("uid", JStr "u1")])) by (intros; now repeat split).
  split.
  - exact (f_equal (fun r => events (snd r))
      (proj2 (proj2 (@update_profile_answers sampleVerifier sampleToString
               sampleStack sampleDispatch
               (updateCtx (obj [("name", JStr "Ann");
                                ("email", JStr "ann@x.com")]))
               "Bearer good" (obj [("uid", JStr "u1")])
               [("name", JStr "Ann"); ("email", JStr "ann@x.com")]
               None None [] eq_refl (Acc _) eq_refl)
             eq_refl eq_refl))).
  - exact (f_equal (fun r => events (snd r))
      (proj2 (proj1 (@update_profile_answers sampleVerifier sampleToString
               sampleStack sampleDispatch
               (updateCtx (obj [("name", JStr "Ann")]))
               "Bearer good" (obj [("uid", JStr "u1")])
               [("name", JStr "Ann")] None None [] eq_refl (Acc _) eq_refl)
             (or_intror eq_refl)))).
Defined.

(** ** Unmatched routes *)

(** C9 fails as stated.  The path [/profile/missing] matches none of the
    routes; it lies under the protected mount, and without a credential the
    gate answers 401 before the 404 handler is reached. *)
Lemma unmatched_protected_path_401 :
  let c := sampleCtx production "GET" "/profile/missing" None JUndefined in
  let trace :=
    exec (app sampleVerifier sampleToString sampleStack sampleDispatch) c in
  sampleDispatch (method (req c)) (originalUrl (req c))
  = ProfileMount ProfileNone
  /\ trace = [unauthorizedAnswer "Missing or invalid authorization token"]
  /\ ~ (exists body, In (StatusJson (JNum 404) body) trace).
Proof.
  cbv zeta. repeat split.
  intros [body [H | []]]. discriminate H.
Qed.

Lemma unmatched_route_404_witness :
  let run url header :=
    exec (app sampleVerifier sampleToString sampleStack sampleDispatch)
         (sampleCtx production "GET" url header JUndefined) in
  run "/does-not-exist" None
  = [StatusJson (JNum 404)
       (obj [("status", JStr "fail");
             ("message", JStr "Can't find /does-not-exist on this server!")])]
  /\ run "/profile/missing" (Some "Bearer good")
     = [Verify (JStr "good");
        StatusJson (JNum 404)
          (obj [("status", JStr "fail");
                ("message", JStr "Can't find /profile/missing on this server!")])].
Proof.
  cbv zeta. unfold exec. split.
  - exact (f_equal (fun r => events (snd r))
      (proj1 (proj2 (proj2 (@unmatched_route_404 sampleVerifier sampleToString
               sampleStack sampleDispatch
               (sampleCtx production "GET" "/does-not-exist" None JUndefined))))
             eq_refl)).
  - exact (f_equal (fun r => events (snd r))
      (proj2 (proj2 (proj2 (@unmatched_route_404 sampleVerifier sampleToString
               sampleStack sampleDispatch
               (sampleCtx production "GET" "/profile/missing"
                  (Some "Bearer good") JUndefined))))
             "good" (obj [("uid", JStr "u1")]) eq_refl eq_refl
             (@one_piece_no_occurrence "Bearer " "good" "good"
                ltac:(discriminate) eq_refl)
             eq_refl eq_refl)).
Defined.

(** ** Duplicate keys *)



(** ** Further examples *)

Lemma gate_answers_for_next_failure_witness :
  let failing : Next := fun _ => throw (JStr "boom") in
  exec (firebaseAuthMiddleware sampleVerifier failing)
       (detailsCtx (Some "Bearer good"))
  = [Verify (JStr "good");
     ConsoleError [JStr "Error validating Firebase token:"; JStr "boom"];
     unauthorizedAnswer "Invalid authorization token"].
Proof.
  cbv zeta. unfold exec.
  exact (f_equal (fun r => events (snd r))
    (@gate_answers_for_next_failure sampleVerifier
       (fun _ => throw (JStr "boom")) (detailsCtx (Some "Bearer good"))
       (verified (detailsCtx (Some "Bearer good")) "Bearer good"
                 (obj [("uid", JStr "u1")]))
       "Bearer good" (obj [("uid", JStr "u1")]) (JStr "boom")
       ltac:(now repeat split) eq_refl)).
Defined.

Lemma bearer_token_whole_iff_witness :
  bearerToken ("Bearer " ++ "eyJhbGciOi.J9.sig") = JStr "eyJhbGciOi.J9.sig".
Proof.
  apply (proj2 (proj2 (bearer_token_whole_iff "eyJhbGciOi.J9.sig"))).
  intros O.
  apply (proj1 (proj2 (bearer_token_whole_iff "eyJhbGciOi.J9.sig"))) in O;
    [exact O | reflexivity].
Defined.

Lemma details_route_outcomes_witness :
  let run header :=
    app sampleVerifier sampleToString sampleStack sampleDispatch
        (detailsCtx header) in
  (exists es, refusal es /\ run None = answered (detailsCtx None) es)
  \/ (exists h v,
        accepts sampleVerifier (detailsCtx None) h v
        /\ run None
           = answered (verified (detailsCtx None) h v)
               [StatusJson (JNum 200)
                  (obj [("status", JStr "success");
                        ("data", obj [("user", v)])])]).
Proof.
  cbv zeta.
  exact (proj2 (proj2 (@details_route_outcomes sampleVerifier sampleToString
                         sampleStack sampleDispatch (detailsCtx None)))
               eq_refl).
Defined.

Lemma profile_root_outcomes_witness :
  let c := sampleCtx production "GET" "/profile/" (Some "Bearer good")
                     JUndefined in
  let c' := verified c "Bearer good" (obj [("uid", JStr "u1")]) in
  profileRoot sampleStack markingHandler c'
  = answered c'
      [Json (obj [("message",
                   JStr "Profile route is protected and accessible only to authenticated users.");
                  ("user", obj [("uid", JStr "u1")])])].
Proof.
  cbv zeta.
  exact (proj1 (@profile_root_outcomes sampleVerifier sampleToString
                  sampleStack sampleDispatch
                  (verified (sampleCtx production "GET" "/profile/"
                               (Some "Bearer good") JUndefined)
                            "Bearer good" (obj [("uid", JStr "u1")])))
               eq_refl markingHandler).
Defined.

Lemma update_without_body_witness :
  let record : Next := fun e => emit (ConsoleError [orUndefined e]) in
  exists e,
    exec (updateUserProfile sampleToString sampleStack record)
         (updateCtx JNull)
    = [ConsoleError [e]]
    /\ get "name" e = JStr "TypeError".
Proof.
  cbv zeta.
  destruct (@update_without_body sampleToString sampleStack
              (fun e => emit (ConsoleError [orUndefined e]))
              (updateCtx JNull) (or_intror eq_refl)) as [e [H [_ [N _]]]].
  exists e. split; [|exact N]. unfold exec. now rewrite H.
Defined.

Lemma cast_errors_reclassified_witness :
  exec (globalErrorHandler sampleToString sampleStack
          (obj [("name", JStr "CastError"); ("path", JStr "_id");
                ("value", JStr "xyz"); ("code", JNum 11000)]))
       (errorCtx production)
  = [StatusJson (JNum 400)
       (obj [("status", JStr "fail");
             ("message", JStr "Invalid _id: xyz")])].
Proof.
  unfold exec.
  exact (f_equal (fun r => events (snd r))
    (@cast_errors_reclassified sampleToString sampleStack
       [("name", JStr "CastError"); ("path", JStr "_id");
        ("value", JStr "xyz"); ("code", JNum 11000)]
       None None [] (errorCtx production) eq_refl eq_refl eq_refl eq_refl)).
Defined.

Lemma validation_errors_reclassified_witness :
  let fields :=
    [("name", obj [("message", JStr "Name is required")]);
     ("email", obj [("message", JStr "Email is invalid")])] in
  exec (globalErrorHandler sampleToString sampleStack
          (obj [("name", JStr "ValidationError"); ("errors", obj fields)]))
       (errorCtx production)
  = [StatusJson (JNum 400)
       (obj [("status", JStr "fail");
             ("message",
              JStr "Invalid input data. Name is required. Email is invalid")])]
  /\ exists e,
       globalErrorHandler sampleToString sampleStack
         (obj [("name", JStr "ValidationError")]) (errorCtx production)
       = threw (errorCtx production) e.
Proof.
  cbv zeta. unfold exec. split.
  - exact (f_equal (fun r => events (snd r))
      (proj1 (@validation_errors_reclassified sampleToString sampleStack
                [("name", JStr "ValidationError");
                 ("errors",
                  obj [("name", obj [("message", JStr "Name is required")]);
                       ("email", obj [("message", JStr "Email is invalid")])])]
                None None [] (errorCtx production)
                eq_refl eq_refl ltac:(discriminate))
             _ None None [] ["Name is required"; "Email is invalid"]
             eq_refl
             ltac:(repeat constructor))).
  - exact (proj2 (@validation_errors_reclassified sampleToString sampleStack
                    [("name", JStr "ValidationError")]
                    None None [] (errorCtx production)
                    eq_refl eq_refl ltac:(discriminate))
                 eq_refl).
Defined.

Lemma duplicate_key_reclassified_witness :
  exec (globalErrorHandler sampleToString sampleStack
          (obj [("name", JStr "MongoError"); ("code", JNum 11000);
                ("errmsg", JStr "E11000 duplicate key: { email: 'ann@x.com' }")]))
       (errorCtx production)
  = [StatusJson (JNum 400)
       (obj [("status", JStr "fail");
             ("message",
              JStr "Duplicate field value: 'ann@x.com'. Please use another value!")])].
Proof.
  unfold exec.
  exact (f_equal (fun r => events (snd r))
    (@duplicate_key_reclassified sampleToString sampleStack
       [("name", JStr "MongoError"); ("code", JNum 11000);
        ("errmsg", JStr "E11000 duplicate key: { email: 'ann@x.com' }")]
       None None [] (errorCtx production)
       "E11000 duplicate key: { email: " "ann@x.com" " }" squote
       eq_refl ltac:(discriminate) eq_refl eq_refl eq_refl eq_refl eq_refl
       eq_refl)).
Defined.

Lemma duplicate_value_is_quoted_part_witness :
  exists value a d,
    "dup key: 'a\'b' and 'c'" = a ++ value ++ d
    /\ JStr "Duplicate field value: 'a\'b'. Please use another value!"
       = JStr ("Duplicate field value: " ++ value
               ++ ". Please use another value!").
Proof.
  destruct (@duplicate_value_is_quoted_part sampleStack
              (obj [("errmsg", JStr "dup key: 'a\'b' and 'c'")])
              _ eq_refl)
    as (errmsg & a & value & d & q & b & E & S & _ & _ & _ & M & _).
  exists value, a, d. injection E as <-. split; [exact S | exact M].
Defined.

Lemma app_error_status_by_first_digit_witness :
  get "status" (AppError sampleStack "odd code" (Some 4000)) = JStr "fail".
Proof.
  apply (proj1 (@app_error_status_by_first_digit sampleStack "odd code" 4000
                  ltac:(lia))).
  lia.
Defined.

Lemma error_handler_settles_witness :
  let err :=
    obj [("name", JStr "MongoError"); ("code", JNum 11000);
         ("errmsg", JStr "E11000 duplicate key error")] in
  toErrorHandler sampleToString sampleStack (Some err) (errorCtx production)
  = answered (errorCtx production)
      [Escaped (TypeError sampleStack "Cannot read properties of null")].
Proof.
  cbv zeta.
  exact (proj2 (@error_handler_settles sampleToString sampleStack
                  (obj [("name", JStr "MongoError"); ("code", JNum 11000);
                        ("errmsg", JStr "E11000 duplicate key error")])
                  (errorCtx production))
               _ eq_refl).
Defined.

Lemma normalize_idempotent_witness :
  get "name" (normalize (sampleTokenError "TokenExpiredError"))
  = JStr "TokenExpiredError".
Proof.
  exact (proj2 (normalize_idempotent
                  [("name", JStr "TokenExpiredError");
                   ("message", JStr "jwt malformed")]
                  None (Some (JStr sampleStack))
                  [("name", JStr "Error"); ("message", JStr EmptyString)])
               "name" ltac:(discriminate) ltac:(discriminate)).
Defined.

